(** * aor-postgrest-client: the admin-on-rest to PostgREST translator

    A shallow embedding of [src/index.js]: the filter encoder
    ([convertFilters]), the request builder ([convertRESTRequestToHTTP]),
    the response decoder ([convertHTTPResponseToREST]) and the exported
    dispatcher, followed by the properties of the specification that
    concern them.

    JavaScript objects used as dictionaries are finite maps from property
    names to values; exceptions are an explicit error monad; the token
    store and the log of transport calls are threaded as explicit state. *)

From stdpp Require Import gmap strings list fin_maps pretty.
From Stdlib Require Import ZArith Ascii String.

#[local] Set Warnings "-register-all".
#[local] Open Scope Z_scope.
#[local] Open Scope string_scope.

(** ** Exceptions *)

Module Exn.

(** What a [throw] carries: the engine's [TypeError] (its message is
    engine specific and not modelled) or an [Error] built by the source
    with the given message. *)
Inductive exn : Type :=
| TypeError
| Error (message : string).

Inductive result (A : Type) : Type :=
| Ok (a : A)
| Throw (e : exn).
#[global] Arguments Ok {A} a.
#[global] Arguments Throw {A} e.

#[global] Instance result_bind : MBind result :=
  λ A B k r, match r with
             | Ok a => k a
             | Throw e => Throw e
             end.

#[global] Instance result_ret : MRet result := λ A a, Ok a.

Definition is_ok {A : Type} (r : result A) : bool :=
  match r with Ok _ => true | Throw _ => false end.

Definition to_option {A : Type} (r : result A) : option A :=
  match r with Ok a => Some a | Throw _ => None end.

End Exn.
Import Exn.

(** ** JavaScript values *)

Module JS.

(** Numbers.  Only [NaN] and the integers are represented, and integer
    arithmetic and printing are exact: this is the behaviour of doubles on
    the safe integers, those between [-(2^53 - 1)] and [2^53 - 1], which is
    where page offsets and row counts live.  Beyond them doubles round, and
    from [1e21] on they print in exponent form; the properties that compute
    with numbers or print them are stated for safe integers.  [-0] is
    identified with [0] (both are falsy and both print as [0]). *)
Inductive number : Type :=
| NaN
| Int (z : Z).

(** JSON-like values together with [undefined].  An object is the finite
    map of its own enumerable properties. *)
Inductive value : Type :=
| VUndefined
| VNull
| VBool (b : bool)
| VNum (n : number)
| VStr (s : string)
| VArr (l : list value)
| VObj (m : gmap string value).

(** The result of [typeof]. *)
Inductive type_tag : Type :=
| TString | TBoolean | TUndefined | TNumber | TObject.

Definition typeof (v : value) : type_tag :=
  match v with
  | VUndefined => TUndefined
  | VNull => TObject
  | VBool _ => TBoolean
  | VNum _ => TNumber
  | VStr _ => TString
  | VArr _ => TObject
  | VObj _ => TObject
  end.

(** *** Numbers *)

Definition number_to_string (n : number) : string :=
  match n with
  | NaN => "NaN"
  | Int z => pretty z
  end.

Definition number_truthy (n : number) : bool :=
  match n with
  | NaN => false
  | Int z => negb (z =? 0)%Z
  end.

Definition lift2 (f : Z → Z → Z) (a b : number) : number :=
  match a, b with
  | Int x, Int y => Int (f x y)
  | _, _ => NaN
  end.

Definition num_add := lift2 Z.add.
Definition num_sub := lift2 Z.sub.
Definition num_mul := lift2 Z.mul.

(** [a || b] on numbers. *)
Definition num_or (a b : number) : number :=
  if number_truthy a then a else b.

(** *** Strings: sequences of code units *)

Definition is_digit (c : ascii) : bool :=
  let n := nat_of_ascii c in (48 <=? n)%nat && (n <=? 57)%nat.

Definition digit_value (c : ascii) : Z :=
  Z.of_nat (nat_of_ascii c) - 48.

(** The whitespace code units below 128 that [parseInt] and numeric
    conversion skip: TAB, LF, VT, FF, CR and SPACE. *)
Definition is_space (c : ascii) : bool :=
  let n := nat_of_ascii c in
  ((9 <=? n)%nat && (n <=? 13)%nat) || (n =? 32)%nat.

Fixpoint skip_spaces (s : string) : string :=
  match s with
  | String c s' => if is_space c then skip_spaces s' else s
  | EmptyString => EmptyString
  end.

(** Reads the longest prefix of decimal digits, most significant first;
    [acc] is [None] until a digit has been seen. *)
Fixpoint read_digits (acc : option Z) (s : string) : option Z * string :=
  match s with
  | String c s' =>
      if is_digit c
      then read_digits (Some (10 * default 0 acc + digit_value c)) s'
      else (acc, s)
  | EmptyString => (acc, s)
  end.

Definition read_sign (s : string) : Z * string :=
  match s with
  | String "-" s' => (-1, s')
  | String "+" s' => (1, s')
  | _ => (1, s)
  end.

(** [parseInt(s, 10)]: leading whitespace, an optional sign, then the
    longest run of digits; what follows the digits is ignored, and no
    digit at all gives [NaN]. *)
Definition parseInt (s : string) : number :=
  let '(sign, s1) := read_sign (skip_spaces s) in
  match read_digits None s1 with
  | (Some n, _) => Int (sign * n)
  | (None, _) => NaN
  end.

(** Numeric conversion of a string, for the numerals the number model has:
    blank is [0], a signed run of digits (surrounded by whitespace) is
    that integer.  Everything else is answered [NaN]: that is what the
    platform answers for text that is no numeral, while the numerals in
    other notations (a fraction, an exponent, the prefixes [0x], [0o] and
    [0b], [Infinity]) denote numbers this model does not have.  The
    properties of the range header are stated for pages given as
    numbers. *)
Definition string_to_number (s : string) : number :=
  match skip_spaces s with
  | EmptyString => Int 0
  | s0 =>
      let '(sign, s1) := read_sign s0 in
      match read_digits None s1 with
      | (Some n, rest) =>
          match skip_spaces rest with
          | EmptyString => Int (sign * n)
          | _ => NaN
          end
      | (None, _) => NaN
      end
  end.

Definition lower_ascii (c : ascii) : ascii :=
  let n := nat_of_ascii c in
  if (65 <=? n)%nat && (n <=? 90)%nat then ascii_of_nat (n + 32) else c.

(** [s.toLowerCase()] on the letters A-Z. *)
Fixpoint toLowerCase (s : string) : string :=
  match s with
  | String c s' => String (lower_ascii c) (toLowerCase s')
  | EmptyString => EmptyString
  end.

(** [s.replace(/c/, "")] for a one-character pattern without the global
    flag: the first occurrence of [c] is dropped, the rest is kept. *)
Fixpoint remove_first (c : ascii) (s : string) : string :=
  match s with
  | String a s' => if Ascii.eqb a c then s' else String a (remove_first c s')
  | EmptyString => EmptyString
  end.

(** [s.split(c)] for a one-character separator: never empty. *)
Fixpoint split (c : ascii) (s : string) : list string :=
  match s with
  | EmptyString => [EmptyString]
  | String a s' =>
      if Ascii.eqb a c then EmptyString :: split c s'
      else match split c s' with
           | piece :: pieces => String a piece :: pieces
           | [] => [String a EmptyString]
           end
  end.

(** [a.pop()]: the last element ([None] for [undefined]) and the array
    that is left. *)
Definition pop {A : Type} (l : list A) : option A * list A :=
  (last l, removelast l).

Fixpoint join (sep : string) (l : list string) : string :=
  match l with
  | [] => ""
  | [s] => s
  | s :: l' => s +:+ sep +:+ join sep l'
  end.

Fixpoint contains (c : ascii) (s : string) : bool :=
  match s with
  | String a s' => Ascii.eqb a c || contains c s'
  | EmptyString => false
  end.

(** *** Conversions and property access *)

(** [String(v)], as a template literal applies it.  A plain object prints
    as [[object Object]]; one that shadows [toString] with an own property
    cannot be converted, since no value of the model is callable. *)
Fixpoint to_string (v : value) : result string :=
  match v with
  | VUndefined => Ok "undefined"
  | VNull => Ok "null"
  | VBool b => Ok (if b then "true" else "false")
  | VNum n => Ok (number_to_string n)
  | VStr s => Ok s
  | VArr l =>
      pieces ← (fix elements (l : list value) : result (list string) :=
                  match l with
                  | [] => Ok []
                  | x :: l' =>
                      s ← match x with
                          | VUndefined | VNull => Ok ""
                          | _ => to_string x
                          end ;
                      ss ← elements l' ;
                      Ok (s :: ss)
                  end) l ;
      Ok (join "," pieces)
  | VObj m =>
      match m !! "toString" with
      | Some _ => Throw TypeError
      | None => Ok "[object Object]"
      end
  end.

(** [v.toString()]: a method call, so [null] and [undefined] throw. *)
Definition call_toString (v : value) : result string :=
  match v with
  | VUndefined | VNull => Throw TypeError
  | _ => to_string v
  end.

(** [v.toLowerCase()]: only strings have the method. *)
Definition call_toLowerCase (v : value) : result string :=
  match v with
  | VStr s => Ok (toLowerCase s)
  | _ => Throw TypeError
  end.

(** [v.join(sep)]: only arrays have the method. *)
Definition call_join (v : value) (sep : string) : result string :=
  match v with
  | VArr l =>
      pieces ← mapM (λ x, match x with
                          | VUndefined | VNull => Ok ""
                          | _ => to_string x
                          end) l ;
      Ok (join sep pieces)
  | _ => Throw TypeError
  end.

(** [v.slice()]: arrays and strings are copied, nothing else has the
    method. *)
Definition call_slice (v : value) : result value :=
  match v with
  | VArr l => Ok (VArr l)
  | VStr s => Ok (VStr s)
  | _ => Throw TypeError
  end.

(** [Number(v)], as the arithmetic operators apply it. *)
Definition to_number (v : value) : result number :=
  match v with
  | VUndefined => Ok NaN
  | VNull => Ok (Int 0)
  | VBool b => Ok (Int (if b then 1 else 0))
  | VNum n => Ok n
  | VStr s => Ok (string_to_number s)
  | _ => s ← to_string v ; Ok (string_to_number s)
  end.

(** [o.name] on an object: [undefined] when [o] has no such property. *)
Definition prop (o : gmap string value) (name : string) : value :=
  default VUndefined (o !! name).

(** [v.name] and the destructuring [{name} = v] on any value, for the
    names the source reads this way ([page], [perPage], [field], [order],
    [id]): no built-in prototype defines them, so primitives and arrays
    answer [undefined]; [null] and [undefined] have no properties. *)
Definition get (v : value) (name : string) : result value :=
  match v with
  | VUndefined | VNull => Throw TypeError
  | VObj m => Ok (prop m name)
  | _ => Ok VUndefined
  end.

(** [s.length] on what [getItem] returned: a string, or [null] ([None]). *)
Definition length_of (s : option string) : result nat :=
  match s with
  | Some t => Ok (String.length t)
  | None => Throw TypeError
  end.

Fixpoint indexed_from {A : Type} (i : nat) (l : list A) : gmap string A :=
  match l with
  | [] => ∅
  | x :: l' => <[pretty i := x]> (indexed_from (S i) l')
  end.

Fixpoint code_units (s : string) : list value :=
  match s with
  | String c s' => VStr (String c EmptyString) :: code_units s'
  | EmptyString => []
  end.

(** The own enumerable properties of a non-nullish value: the fields of an
    object, the indices of an array or of a string, none for a number or a
    boolean. *)
Definition own_properties (v : value) : gmap string value :=
  match v with
  | VObj m => m
  | VArr l => indexed_from 0 l
  | VStr s => indexed_from 0 (code_units s)
  | _ => ∅
  end.

(** [Object.keys(v)] paired with the values [v[key]]: throws on [null]
    and [undefined]. *)
Definition entries (v : value) : result (gmap string value) :=
  match v with
  | VUndefined | VNull => Throw TypeError
  | _ => Ok (own_properties v)
  end.

(** The object spread [{...v}]: [null] and [undefined] contribute
    nothing. *)
Definition spread (v : value) : gmap string value :=
  own_properties v.

(** Every object is truthy. *)
Definition object_truthy {A : Type} (o : A) : bool := true.

End JS.
Import JS.

(** ** The platform's [Headers] class

    A map from header names to values in which names are compared without
    regard to case; the names are kept in lower case.  Setting a header
    first strips the HTTP whitespace around the value, then rejects a name
    that is not a token and a value that holds NUL, LF or CR. *)

Module Headers.

Definition empty : gmap string string := ∅.

(** HTTP whitespace: TAB, LF, CR and SPACE. *)
Definition is_whitespace (c : ascii) : bool :=
  let n := nat_of_ascii c in
  (n =? 9)%nat || (n =? 10)%nat || (n =? 13)%nat || (n =? 32)%nat.

(** The code units no header value may hold: NUL, LF and CR. *)
Definition is_forbidden (c : ascii) : bool :=
  let n := nat_of_ascii c in
  (n =? 0)%nat || (n =? 10)%nat || (n =? 13)%nat.

Fixpoint strip_leading (s : string) : string :=
  match s with
  | String c s' => if is_whitespace c then strip_leading s' else s
  | EmptyString => EmptyString
  end.

Fixpoint strip_trailing (s : string) : string :=
  match s with
  | String c s' =>
      match strip_trailing s' with
      | EmptyString => if is_whitespace c then EmptyString
                       else String c EmptyString
      | t => String c t
      end
  | EmptyString => EmptyString
  end.

(** The value as it is stored: without leading and trailing whitespace. *)
Definition normalize (value : string) : string :=
  strip_trailing (strip_leading value).

Fixpoint valid_value (value : string) : bool :=
  match value with
  | String c s' => negb (is_forbidden c) && valid_value s'
  | EmptyString => true
  end.

(** The characters of an HTTP token: letters, digits and
    [! # $ % & ' * + - . ^ _ ` | ~]. *)
Definition is_token_char (c : ascii) : bool :=
  let n := nat_of_ascii c in
  ((65 <=? n)%nat && (n <=? 90)%nat)
  || ((97 <=? n)%nat && (n <=? 122)%nat)
  || ((48 <=? n)%nat && (n <=? 57)%nat)
  || (n =? 33)%nat || ((35 <=? n)%nat && (n <=? 39)%nat)
  || (n =? 42)%nat || (n =? 43)%nat || (n =? 45)%nat || (n =? 46)%nat
  || ((94 <=? n)%nat && (n <=? 96)%nat) || (n =? 124)%nat || (n =? 126)%nat.

Fixpoint all_token_chars (name : string) : bool :=
  match name with
  | String c s' => is_token_char c && all_token_chars s'
  | EmptyString => true
  end.

Definition valid_name (name : string) : bool :=
  match name with
  | EmptyString => false
  | _ => all_token_chars name
  end.

(** [headers.set(name, value)]: a [TypeError] for a name or a value the
    platform refuses. *)
Definition set (name value : string) (h : gmap string string)
  : result (gmap string string) :=
  let value := normalize value in
  if valid_name name && valid_value value
  then Ok (<[toLowerCase name := value]> h)
  else Throw TypeError.

(** [headers.get(name)] for a name that is a token. *)
Definition get (name : string) (h : gmap string string) : option string :=
  h !! toLowerCase name.

(** [headers.has(name)] for a name that is a token. *)
Definition has (name : string) (h : gmap string string) : bool :=
  bool_decide (is_Some (h !! toLowerCase name)).

(** [new Headers(init)] for an object literal [init]. *)
Definition of_list (init : list (string * string))
  : result (gmap string string) :=
  foldl (λ acc '(name, value), h ← acc; set name value h) (Ok empty) init.

End Headers.

(** ** Requests, responses and results *)

(** The [options] object handed to the transport. *)
Record Options : Type := mkOptions {
  headers : gmap string string;
  method : option string;
  body : option string
}.

(** [{ url, options }]. *)
Record Request : Type := mkRequest {
  url : string;
  options : Options
}.

(** What the transport resolves to: [{ headers, json }]. *)
Record Response : Type := mkResponse {
  response_headers : gmap string string;
  json : value
}.

(** [{ data }] or [{ data, total }]. *)
Record RESTResponse : Type := mkREST {
  data : value;
  total : option number
}.

(** Modelled from the spec: the operation kinds are imported from
    [admin-on-rest/lib/rest/types], which is not part of the sources; they
    are the closed enumeration of the specification's data model, each
    constant being the string of its own name as in the header comment of
    [index.js]. *)
Definition GET_LIST : string := "GET_LIST".
(** Modelled from the spec: see [GET_LIST]. *)
Definition GET_ONE : string := "GET_ONE".
(** Modelled from the spec: see [GET_LIST]. *)
Definition GET_MANY : string := "GET_MANY".
(** Modelled from the spec: see [GET_LIST]. *)
Definition GET_MANY_REFERENCE : string := "GET_MANY_REFERENCE".
(** Modelled from the spec: see [GET_LIST]. *)
Definition CREATE : string := "CREATE".
(** Modelled from the spec: see [GET_LIST]. *)
Definition UPDATE : string := "UPDATE".
(** Modelled from the spec: see [GET_LIST]. *)
Definition DELETE : string := "DELETE".

Definition supported : list string :=
  [GET_LIST; GET_ONE; GET_MANY; GET_MANY_REFERENCE; CREATE; UPDATE; DELETE].

(** The message of the error thrown when [Content-Range] is missing. *)
Definition missing_content_range : string :=
  "The Content-Range header is missing in the HTTP Response. " +:+
  "The PostgREST client expects responses for lists of resources to contain " +:+
  "this header with the total number of results to build the pagination. " +:+
  "If you are using CORS, did you declare Content-Range in the " +:+
  "Access-Control-Expose-Headers header?".

(** The state outside the client: the browser's [localStorage] and the
    requests the transport has been called with, latest last. *)
Record World : Type := mkWorld {
  localStorage : gmap string string;
  calls : list Request
}.

(** [localStorage.getItem(key)]: [None] is [null]. *)
Definition getItem (storage : gmap string string) (key : string)
  : option string :=
  storage !! key.

(** ** The client *)

Section Client.

(** The arguments of the exported factory, and the two serialisers it
    imports: [stringify] of the [query-string] package, applied to objects
    whose values are all strings, and the built-in [JSON.stringify], which
    answers [undefined] ([None]) for what it cannot serialise. *)
Variable apiUrl : string.
Variable httpClient : string → Options → result Response.
Variable stringify : gmap string string → string.
Variable JSON_stringify : value → option string.

(** The [switch] on [typeof filters[key]] in [convertFilters]. *)
Definition convertFilter (v : value) : result string :=
  match typeof v with
  | TString =>
      match v with
      | VStr s => Ok ("ilike.*" +:+ remove_first ":" s +:+ "*")
      | _ => Throw TypeError
      end
  | TBoolean => s ← to_string v; Ok ("is." +:+ s)
  | TUndefined => Ok "is.null"
  | TNumber => s ← to_string v; Ok ("eq." +:+ s)
  | TObject =>
      s ← call_toString v;
      Ok ("ilike.*" +:+ remove_first ":" s +:+ "*")
  end.

(** One turn of the loop over [Object.keys(filters)]: [rest[key] = ...],
    unless an earlier turn or this one throws. *)
Definition convertFilters_step (key : string) (v : value)
    (acc : result (gmap string string)) : result (gmap string string) :=
  rest ← acc;
  s ← convertFilter v;
  Ok (<[key := s]> rest).

Definition convertFilters (filters : value) : result (gmap string string) :=
  props ← entries filters;
  map_fold convertFilters_step (Ok ∅) props.

Definition singleResourceUrl (resource : string)
    (params : gmap string value) : result string :=
  s ← to_string (prop params "id");
  let query : gmap string string := {[ "id" := "eq." +:+ s ]} in
  Ok (apiUrl +:+ "/" +:+ resource +:+ "?" +:+ stringify query).

Definition setSingleResponseHeaders (o : Options) : result Options :=
  h ← Headers.set "Prefer" "return=representation" (headers o);
  h ← Headers.set "Accept" "application/vnd.pgrst.object+json" h;
  Ok (mkOptions h (method o) (body o)).

(** [options.headers.set(name, value)] *)
Definition set_header (name value : string) (o : Options) : result Options :=
  h ← Headers.set name value (headers o);
  Ok (mkOptions h (method o) (body o)).

(** [Object.assign(query, rest)] on [query = { order }]: a filter on a
    field called [order] replaces the sort parameter. *)
Definition assign_query (order : string) (rest : gmap string string)
  : gmap string string :=
  rest ∪ {[ "order" := order ]}.

(** [`${field}.${order.toLowerCase()}`] *)
Definition order_parameter (field order : value) : result string :=
  f ← to_string field;
  o ← call_toLowerCase order;
  Ok (f +:+ "." +:+ o).

(** [`${(page - 1) * perPage}-${page * perPage - 1}`] *)
Definition range_header (page perPage : value) : result string :=
  p ← to_number page;
  pp ← to_number perPage;
  let first := num_mul (num_sub p (Int 1)) pp in
  let last := num_sub (num_mul p pp) (Int 1) in
  Ok (number_to_string first +:+ "-" +:+ number_to_string last).

(** [params] is the record of the request's parameters; what its fields
    hold is not constrained. *)
Definition convertRESTRequestToHTTP (storage : gmap string string)
    (type resource : string) (params : gmap string value) : result Request :=
  let o := mkOptions Headers.empty None None in
  o ← (if negb (object_truthy (headers o))
       then h ← Headers.of_list [("Accept", "application/json")];
            Ok (mkOptions h (method o) (body o))
       else Ok o);
  let token := getItem storage "token" in
  token_length ← length_of token;
  o ← (if (16 <? token_length)%nat
       then set_header "Authorization"
              ("Bearer " +:+ default "null" token) o
       else Ok o);
  if decide (type = GET_LIST) then
    page ← JS.get (prop params "pagination") "page";
    perPage ← JS.get (prop params "pagination") "perPage";
    field ← JS.get (prop params "sort") "field";
    order ← JS.get (prop params "sort") "order";
    o ← set_header "Range-Unit" "items" o;
    range ← range_header page perPage;
    o ← set_header "Range" range o;
    o ← set_header "Prefer" "count=exact" o;
    ord ← order_parameter field order;
    rest ← convertFilters (prop params "filter");
    let query := assign_query ord rest in
    Ok (mkRequest (apiUrl +:+ "/" +:+ resource +:+ "?" +:+ stringify query) o)
  else if decide (type = GET_ONE) then
    u ← singleResourceUrl resource params;
    o ← setSingleResponseHeaders o;
    Ok (mkRequest u o)
  else if decide (type = GET_MANY) then
    joined ← call_join (prop params "ids") ",";
    Ok (mkRequest
          (apiUrl +:+ "/" +:+ resource +:+ "?id=in.(" +:+ joined +:+ ")") o)
  else if decide (type = GET_MANY_REFERENCE) then
    field ← JS.get (prop params "sort") "field";
    order ← JS.get (prop params "sort") "order";
    (* filters[params.target] = params.id, for a target other than the
       special name __proto__ *)
    key ← to_string (prop params "target");
    let filters : gmap string value := {[ key := prop params "id" ]} in
    ord ← order_parameter field order;
    rest ← convertFilters (VObj filters);
    let query := assign_query ord rest in
    Ok (mkRequest (apiUrl +:+ "/" +:+ resource +:+ "?" +:+ stringify query) o)
  else if decide (type = UPDATE) then
    u ← singleResourceUrl resource params;
    o ← setSingleResponseHeaders o;
    Ok (mkRequest u (mkOptions (headers o) (Some "PATCH")
                       (JSON_stringify (prop params "data"))))
  else if decide (type = CREATE) then
    o ← setSingleResponseHeaders o;
    Ok (mkRequest (apiUrl +:+ "/" +:+ resource)
          (mkOptions (headers o) (Some "POST")
             (JSON_stringify (prop params "data"))))
  else if decide (type = DELETE) then
    u ← singleResourceUrl resource params;
    Ok (mkRequest u (mkOptions (headers o) (Some "DELETE") (body o)))
  else
    Throw (Error ("Unsupported fetch action type " +:+ type)).

(** The total of a list response, from the value of [Content-Range]. *)
Definition content_range_total (range : string) : result number :=
  let '(last_part, rangeParts) := pop (split "/" range) in
  let declared := parseInt (default "" last_part) in
  if number_truthy declared then Ok declared
  else
    match rangeParts !! 0%nat with
    | None => Throw TypeError
    | Some first =>
        let '(end_part, _) := pop (split "-" first) in
        Ok (num_add (parseInt (default "" end_part)) (Int 1))
    end.

Definition convertHTTPResponseToREST (response : Response)
    (type resource : string) (params : gmap string value)
  : result RESTResponse :=
  let headers := response_headers response in
  let json := json response in
  if decide (type = GET_LIST ∨ type = GET_MANY_REFERENCE) then
    if negb (Headers.has "content-range" headers)
    then Throw (Error missing_content_range)
    else
      range ← match Headers.get "content-range" headers with
              | Some range => Ok range
              | None => Throw TypeError
              end;
      total ← content_range_total range;
      rows ← call_slice json;
      Ok (mkREST rows (Some total))
  else if decide (type = CREATE) then
    id ← JS.get json "id";
    Ok (mkREST (VObj (<["id" := id]> (spread (prop params "data")))) None)
  else if decide (type = DELETE) then
    Ok (mkREST (VObj ∅) None)
  else
    Ok (mkREST json None).

(** The exported function.  The transport's promise is modelled by its
    outcome, and a call of the transport is recorded in the world. *)
Definition dispatch (w : World) (type resource : string)
    (params : gmap string value) : World * result RESTResponse :=
  match convertRESTRequestToHTTP (localStorage w) type resource params with
  | Throw e => (w, Throw e)
  | Ok request =>
      let w' := mkWorld (localStorage w) (calls w ++ [request]) in
      (w', response ← httpClient (url request) (options request);
           convertHTTPResponseToREST response type resource params)
  end.

End Client.

(** A stand-in for [query-string]'s [stringify] on the examples below:
    [key=value] pairs joined by [&], without percent-encoding. *)
Definition plain_stringify (query : gmap string string) : string :=
  join "&" ((λ '(k, v), k +:+ "=" +:+ v) <$> map_to_list query).

(** A stand-in for [JSON.stringify] on the examples below, none of which
    looks at the body. *)
Definition no_body (v : value) : option string := None.

(** A transport whose server answers every request with a record whose
    [id] is 42. *)
Definition created_42 (u : string) (o : Options) : result Response :=
  Ok (mkResponse {[ "content-type" := "application/json" ]}
        (VObj {[ "id" := VNum (Int 42); "name" := VStr "y" ]})).

(** A transport that is never reachable. *)
Definition offline (u : string) (o : Options) : result Response :=
  Throw (Error "offline").


(** The headers of a request of kind [type], over the headers [base] set
    before the [switch]; [range] is the value computed for [Range]. *)
Definition kind_headers (type range : string) (base : gmap string string)
  : gmap string string :=
  if decide (type = GET_LIST) then
    <["prefer" := "count=exact"]>
      (<["range" := range]> (<["range-unit" := "items"]> base))
  else if decide (type = GET_ONE ∨ type = UPDATE ∨ type = CREATE) then
    <["accept" := "application/vnd.pgrst.object+json"]>
      (<["prefer" := "return=representation"]> base)
  else base.

(** The value stored for [Authorization]: [Bearer <token>] without the
    whitespace at its ends. *)
Definition authorization_value (token : string) : string :=
  Headers.normalize ("Bearer " +:+ token).

(** The tokens the builder gets past: those too short to be sent, and those
    whose [Authorization] value the platform accepts. *)
Definition token_accepted (token : string) : bool :=
  (String.length token <=? 16)%nat
  || Headers.valid_value (authorization_value token).

(** The headers set before the [switch], for a stored token. *)
Definition token_headers (token : string) : gmap string string :=
  if (16 <? String.length token)%nat
  then {[ "authorization" := authorization_value token ]}
  else ∅.

(** Whether the last code unit of a string is HTTP whitespace. *)
Fixpoint ends_with_whitespace (s : string) : bool :=
  match s with
  | EmptyString => false
  | String c EmptyString => Headers.is_whitespace c
  | String _ s' => ends_with_whitespace s'
  end.

(** A string without whitespace and without the code units a header value
    may not hold. *)
Fixpoint plain (s : string) : bool :=
  match s with
  | String c s' =>
      negb (Headers.is_whitespace c) && negb (Headers.is_forbidden c)
      && plain s'
  | EmptyString => true
  end.

(** The integers that doubles hold exactly and print in full:
    [Number.isSafeInteger]. *)
Definition safe_integer (z : Z) : Prop :=
  (- (2 ^ 53 - 1) ≤ z ≤ 2 ^ 53 - 1)%Z.

(** What the loop of [convertFilters] has computed after any number of
    turns: on success every field has its encoding and there is nothing
    else in the result; a failure is the failure of some field. *)
Definition encoded (props : gmap string value)
    (r : result (gmap string string)) : Prop :=
  match r with
  | Ok rest =>
      ∀ key, match props !! key with
             | Some v => ∃ s, convertFilter v = Ok s ∧ rest !! key = Some s
             | None => rest !! key = None
             end
  | Throw e => ∃ key v, props !! key = Some v ∧ convertFilter v = Throw e
  end.

(** [null] or [undefined]. *)
Definition nullish (v : value) : bool :=
  match v with
  | VUndefined | VNull => true
  | _ => false
  end.

(** The options a request starts from once the token has been read: the
    token's headers, no method, no body. *)
Definition authorized (token : string) : Options :=
  mkOptions (token_headers token) None None.

(** * Properties *)

(** ** The error monad *)

Lemma bind_Ok {A B : Type} (r : result A) (k : A → result B) (b : B) :
  r ≫= k = Ok b ↔ ∃ a, r = Ok a ∧ k a = Ok b.
Proof.
  destruct r as [a|e]; simpl; split.
  - intros H. by exists a.
  - by intros (a' & [= <-] & H).
  - discriminate.
  - by intros (a' & [=] & _).
Qed.

Lemma bind_Throw {A B : Type} (r : result A) (k : A → result B) (e : exn) :
  r ≫= k = Throw e ↔ r = Throw e ∨ ∃ a, r = Ok a ∧ k a = Throw e.
Proof.
  destruct r as [a|e']; simpl; split.
  - intros H. right. by exists a.
  - intros [[=]|(a' & [= <-] & H)]. done.
  - intros [= <-]. by left.
  - intros [[= <-]|(a' & [=] & _)]. done.
Qed.

Ltac inv_bind H :=
  let a := fresh "a" in
  let Ha := fresh "Ha" in
  apply bind_Ok in H as (a & Ha & H).

Ltac inv_binds H := repeat inv_bind H.

(** Equalities, disjunctions of equalities and contradictions between the
    operation kinds. *)
Ltac kinds :=
  unfold GET_LIST, GET_ONE, GET_MANY, GET_MANY_REFERENCE, CREATE, UPDATE,
    DELETE in *;
  repeat match goal with
         | H : _ ∨ _ |- _ => destruct H
         | H : _ = _ |- _ => discriminate H
         | |- _ = _ => reflexivity
         | |- _ ∨ _ => (left; reflexivity) || right
         end.

Ltac kinds_ne :=
  unfold GET_LIST, GET_ONE, GET_MANY, GET_MANY_REFERENCE, CREATE, UPDATE,
    DELETE; discriminate.


(** ** Strings *)





(** ** The filter encoder *)

Lemma convertFilters_loop (props : gmap string value) :
  encoded props (map_fold convertFilters_step (Ok ∅) props).
Proof.
  apply (map_fold_weak_ind (λ r m, encoded m r)).
  - intros key. by rewrite !lookup_empty.
  - intros i x m r Hi IH. unfold convertFilters_step.
    destruct r as [rest|e]; simpl.
    + destruct (convertFilter x) as [s|e] eqn:Hx; simpl.
      * intros key. destruct (decide (i = key)) as [->|Hne].
        -- rewrite !lookup_insert_eq. by exists s.
        -- rewrite !lookup_insert_ne by done. apply IH.
      * exists i, x. by rewrite lookup_insert_eq.
    + destruct IH as (key & v & Hkey & Hv).
      exists key, v. split; [|done].
      rewrite lookup_insert_ne; [done|]. intros ->. congruence.
Qed.

Lemma convertFilters_Ok (filters : gmap string value)
    (rest : gmap string string) :
  convertFilters (VObj filters) = Ok rest →
  ∀ key, match filters !! key with
         | Some v => ∃ s, convertFilter v = Ok s ∧ rest !! key = Some s
         | None => rest !! key = None
         end.
Proof.
  unfold convertFilters. simpl. intros H.
  pose proof (convertFilters_loop filters) as Hloop.
  by rewrite H in Hloop.
Qed.

(** Induction on values through the elements of arrays; the fields of an
    object are not visited. *)
Lemma value_array_ind (P : value → Prop) :
  P VUndefined → P VNull → (∀ b, P (VBool b)) → (∀ n, P (VNum n)) →
  (∀ s, P (VStr s)) → (∀ l, Forall P l → P (VArr l)) →
  (∀ m, P (VObj m)) →
  ∀ v, P v.
Proof.
  intros Hundef Hnull Hbool Hnum Hstr Harr Hobj.
  refine (fix go (v : value) : P v :=
            match v with
            | VUndefined => Hundef
            | VNull => Hnull
            | VBool b => Hbool b
            | VNum n => Hnum n
            | VStr s => Hstr s
            | VArr l =>
                Harr l ((fix go_list (l : list value) : Forall P l :=
                           match l with
                           | [] => List.Forall_nil P
                           | x :: l' =>
                               List.Forall_cons P x l' (go x) (go_list l')
                           end) l)
            | VObj m => Hobj m
            end).
Qed.

(** Conversion to a string fails only with a [TypeError]. *)
Lemma to_string_throws (v : value) (e : exn) :
  to_string v = Throw e → e = TypeError.
Proof.
  induction v as [| |b|n|s|l IH|m] using value_array_ind; simpl;
    try discriminate.
  - intros [H|(a & _ & [=])]%bind_Throw. revert H.
    induction IH as [|x l Hx _ IHl]; [discriminate|].
    intros [H|(a & _ & [H|(b & _ & [=])]%bind_Throw)]%bind_Throw.
    + destruct x; try discriminate; by apply Hx.
    + by apply IHl.
  - destruct (m !! "toString"); [|discriminate]. by intros [= <-].
Qed.

Lemma call_toString_throws (v : value) (e : exn) :
  call_toString v = Throw e → e = TypeError.
Proof.
  destruct v; unfold call_toString; try (by intros [= <-]);
    apply to_string_throws.
Qed.

Lemma convertFilter_throws (v : value) (e : exn) :
  convertFilter v = Throw e → e = TypeError ∧ typeof v = TObject.
Proof.
  destruct v as [| |b|n|s|l|m]; try discriminate; unfold convertFilter;
    simpl typeof; cbv iota;
    (intros [H|(a & _ & [=])]%bind_Throw; split; [|done]);
    by apply call_toString_throws in H.
Qed.

Lemma convertFilter_primitive (v : value) :
  typeof v ≠ TObject → is_ok (convertFilter v) = true.
Proof. by destruct v as [| |[]|n|s|l|m]. Qed.

(** The encoder fails in one way only, whatever the order in which the
    fields are visited. *)
Lemma convertFilters_throws (filters : gmap string value) (e : exn) :
  convertFilters (VObj filters) = Throw e → e = TypeError.
Proof.
  unfold convertFilters. simpl. intros H.
  pose proof (convertFilters_loop filters) as Hloop. rewrite H in Hloop.
  by destruct Hloop as (k & v & _ & [-> _]%convertFilter_throws).
Qed.

(** A [null] among the filter values makes the whole encoding throw. *)
Lemma convertFilters_null (filters : gmap string value) (key : string) :
  filters !! key = Some VNull →
  convertFilters (VObj filters) = Throw TypeError.
Proof.
  intros Hkey. unfold convertFilters. simpl.
  pose proof (convertFilters_loop filters) as Hloop.
  destruct (map_fold _ _ _) as [rest|e]; simpl in Hloop.
  - specialize (Hloop key). rewrite Hkey in Hloop.
    by destruct Hloop as (s & [=] & _).
  - destruct Hloop as (k & v & _ & [-> _]%convertFilter_throws). done.
Qed.

(** Without [null], arrays and objects among the values, the encoding
    succeeds. *)
Lemma convertFilters_primitives (filters : gmap string value) :
  (∀ key v, filters !! key = Some v → typeof v ≠ TObject) →
  ∃ rest, convertFilters (VObj filters) = Ok rest.
Proof.
  intros Hprim. unfold convertFilters. simpl.
  pose proof (convertFilters_loop filters) as Hloop.
  destruct (map_fold _ _ _) as [rest|e]; simpl in Hloop; [by exists rest|].
  destruct Hloop as (k & v & Hk & [_ Hv]%convertFilter_throws).
  by apply Hprim in Hk.
Qed.

(** C2 (the code diverges from the claim).  The claim: the filter encoder
    is total, every value including [null] yields an operator-prefixed
    string and no error is raised.  The code: [typeof null] is ["object"],
    so a [null] value reaches the [default] branch, where calling
    [toString] on it throws; the filter [{ published: null }] makes
    [convertFilters] throw a [TypeError]. *)
Theorem C2_null_filter_value_throws :
  convertFilters (VObj {[ "published" := VNull ]}) = Throw TypeError.
Proof. by apply (convertFilters_null _ "published"). Qed.



(** ** The request builder *)

(** The second page of ten posts, sorted by title. *)
Example list_request_page_2 :
  convertRESTRequestToHTTP "http://my.api.url" plain_stringify no_body
    {[ "token" := "" ]} GET_LIST "posts"
    {[ "pagination" := VObj {[ "page" := VNum (Int 2);
                               "perPage" := VNum (Int 10) ]};
       "sort" := VObj {[ "field" := VStr "title"; "order" := VStr "ASC" ]};
       "filter" := VObj ∅ ]}
  = Ok (mkRequest "http://my.api.url/posts?order=title.asc"
          (mkOptions {[ "range-unit" := "items"; "range" := "10-19";
                        "prefer" := "count=exact" ]} None None)).
Proof. vm_compute; reflexivity. Qed.

Example many_request_ids :
  url <$> to_option (convertRESTRequestToHTTP "http://my.api.url"
                       plain_stringify no_body {[ "token" := "" ]}
                       GET_MANY "posts"
                       {[ "ids" := VArr [VNum (Int 1); VNum (Int 2);
                                         VNum (Int 3)] ]})
  = Some "http://my.api.url/posts?id=in.(1,2,3)".
Proof. vm_compute; reflexivity. Qed.

(** *** Header values *)

Lemma Headers_set_Ok name value h h' :
  Headers.set name value h = Ok h' →
  h' = <[toLowerCase name := Headers.normalize value]> h.
Proof.
  unfold Headers.set. destruct (_ && _); [|discriminate]. by intros [= <-].
Qed.

Lemma Headers_set_throws name value h e :
  Headers.set name value h = Throw e → e = TypeError.
Proof.
  unfold Headers.set. destruct (_ && _); [discriminate|]. by intros [= <-].
Qed.

Lemma strip_trailing_plain s : plain s = true → Headers.strip_trailing s = s.
Proof.
  induction s as [|c s IH]; [done|]. cbn [plain Headers.strip_trailing].
  intros [[Hws _]%andb_prop Hs]%andb_prop. rewrite (IH Hs).
  destruct s; [|done]. by destruct (Headers.is_whitespace c).
Qed.

Lemma normalize_plain s : plain s = true → Headers.normalize s = s.
Proof.
  intros Hs. unfold Headers.normalize.
  assert (Headers.strip_leading s = s) as ->.
  { destruct s as [|c s]; [done|]. cbn [plain] in Hs. simpl.
    by destruct (Headers.is_whitespace c). }
  by apply strip_trailing_plain.
Qed.

Lemma valid_value_plain s : plain s = true → Headers.valid_value s = true.
Proof.
  induction s as [|c s IH]; [done|]. cbn [plain Headers.valid_value].
  intros [[_ ->]%andb_prop Hs]%andb_prop. by rewrite IH.
Qed.

Lemma Headers_set_plain name value h :
  Headers.valid_name name = true → plain value = true →
  Headers.set name value h = Ok (<[toLowerCase name := value]> h).
Proof.
  intros Hname Hvalue. unfold Headers.set.
  by rewrite (normalize_plain _ Hvalue), Hname, (valid_value_plain _ Hvalue).
Qed.

Lemma plain_app s t : plain (s +:+ t) = plain s && plain t.
Proof.
  induction s as [|c s IH]; [done|].
  change (String c s +:+ t) with (String c (s +:+ t)).
  cbn [plain]. rewrite IH. by rewrite andb_assoc.
Qed.

Lemma pretty_N_go_plain (x : N) (s : string) :
  plain s = true → plain (pretty_N_go x s) = true.
Proof.
  revert s. induction (N.lt_wf_0 x) as [x _ IH]; intros s Hs.
  assert (x = 0 ∨ 0 < x)%N as [->|?] by lia.
  - by rewrite pretty_N_go_0.
  - rewrite pretty_N_go_step by done. apply IH.
    { by apply N.div_lt. }
    cbn [plain]. rewrite Hs. unfold pretty_N_char. by repeat case_match.
Qed.

Lemma pretty_N_plain (x : N) : plain (pretty x) = true.
Proof.
  unfold pretty, pretty_N. case_decide; [done|]. by apply pretty_N_go_plain.
Qed.

Lemma pretty_Z_plain (z : Z) : plain (pretty z) = true.
Proof.
  destruct z as [|x|x]; [done| |].
  - apply (pretty_N_plain (N.pos x)).
  - change (pretty (Z.neg x)) with ("-" +:+ pretty (N.pos x)).
    rewrite plain_app. by rewrite pretty_N_plain.
Qed.

Lemma number_to_string_plain n : plain (number_to_string n) = true.
Proof. destruct n; [done|]. apply pretty_Z_plain. Qed.

Lemma range_header_plain page perPage range :
  range_header page perPage = Ok range → plain range = true.
Proof.
  unfold range_header. intros H. inv_binds H. injection H as <-.
  by rewrite !plain_app, !number_to_string_plain.
Qed.

(** *** The builder, kind by kind *)

(** What happens to the options before the [switch], for a stored token. *)
Lemma authorize_spec token :
  (if (16 <? String.length token)%nat
   then set_header "Authorization"
          ("Bearer " +:+ default "null" (Some token))
          (mkOptions Headers.empty None None)
   else Ok (mkOptions Headers.empty None None))
  = if token_accepted token then Ok (authorized token) else Throw TypeError.
Proof.
  unfold token_accepted, authorized, token_headers, authorization_value.
  destruct (16 <? String.length token)%nat eqn:Hlen.
  - apply Nat.ltb_lt in Hlen.
    rewrite (proj2 (Nat.leb_gt _ _)) by done. cbn [orb].
    unfold set_header, Headers.set, Headers.empty.
    cbn [headers method body default from_option id].
    change (Headers.valid_name "Authorization") with true. cbn [andb].
    change (toLowerCase "Authorization") with "authorization".
    destruct (Headers.valid_value _); [|done].
    cbn [mbind result_bind]. by rewrite insert_empty.
  - apply Nat.ltb_ge in Hlen. by rewrite (proj2 (Nat.leb_le _ _)).
Qed.

Lemma single_response_headers_spec base :
  setSingleResponseHeaders (mkOptions base None None)
  = Ok (mkOptions
          (<["accept" := "application/vnd.pgrst.object+json"]>
             (<["prefer" := "return=representation"]> base))
          None None).
Proof.
  unfold setSingleResponseHeaders. cbn [headers method body].
  rewrite (Headers_set_plain "Prefer" "return=representation")
    by (vm_compute; reflexivity).
  cbn [mbind result_bind].
  by rewrite (Headers_set_plain "Accept" "application/vnd.pgrst.object+json")
    by (vm_compute; reflexivity).
Qed.

Lemma set_header_plain name value base m b :
  Headers.valid_name name = true → plain value = true →
  set_header name value (mkOptions base m b)
  = Ok (mkOptions (<[toLowerCase name := value]> base) m b).
Proof.
  intros Hname Hvalue. unfold set_header. cbn [headers method body].
  by rewrite Headers_set_plain.
Qed.

Section Builder.

Variable apiUrl : string.
Variable stringify : gmap string string → string.
Variable JSON_stringify : value → option string.
Variable httpClient : string → Options → result Response.

Abbreviation build :=
  (convertRESTRequestToHTTP apiUrl stringify JSON_stringify).
Abbreviation client :=
  (dispatch apiUrl httpClient stringify JSON_stringify).

(** Without a stored token the builder throws before it looks at the
    kind. *)
Lemma build_without_token storage type resource params :
  getItem storage "token" = None →
  build storage type resource params = Throw TypeError.
Proof. unfold convertRESTRequestToHTTP. by intros ->. Qed.

(** With a token whose [Authorization] value the platform refuses, it
    throws there. *)
Lemma build_with_refused_token storage token type resource params :
  getItem storage "token" = Some token →
  token_accepted token = false →
  build storage type resource params = Throw TypeError.
Proof.
  intros Htoken Hrefused. unfold convertRESTRequestToHTTP. rewrite Htoken.
  simpl negb. cbv iota. cbn [mbind result_bind length_of].
  by rewrite authorize_spec, Hrefused.
Qed.

Ltac build_kind Htoken Haccepted :=
  unfold convertRESTRequestToHTTP; rewrite Htoken;
  simpl negb; cbv iota; cbn [mbind result_bind length_of];
  rewrite authorize_spec, Haccepted; cbn [mbind result_bind];
  rewrite ?decide_False by kinds_ne;
  rewrite ?decide_True by done.

(** With a token that gets through, an unknown kind reaches the [default]
    branch. *)
Lemma build_unsupported storage token type resource params :
  getItem storage "token" = Some token →
  token_accepted token = true →
  type ∉ supported →
  build storage type resource params
  = Throw (Error ("Unsupported fetch action type " +:+ type)).
Proof.
  intros Htoken Haccepted Hkind. unfold convertRESTRequestToHTTP.
  rewrite Htoken. simpl negb. cbv iota. cbn [mbind result_bind length_of].
  rewrite authorize_spec, Haccepted. cbn [mbind result_bind].
  unfold supported in Hkind. rewrite !not_elem_of_cons in Hkind.
  destruct Hkind as (? & ? & ? & ? & ? & ? & ? & _).
  by repeat (case_decide; [congruence|]).
Qed.

Lemma build_GET_LIST storage token resource params :
  getItem storage "token" = Some token →
  token_accepted token = true →
  build storage GET_LIST resource params
  = page ← JS.get (prop params "pagination") "page";
    perPage ← JS.get (prop params "pagination") "perPage";
    field ← JS.get (prop params "sort") "field";
    order ← JS.get (prop params "sort") "order";
    range ← range_header page perPage;
    ord ← order_parameter field order;
    rest ← convertFilters (prop params "filter");
    Ok (mkRequest
          (apiUrl +:+ "/" +:+ resource +:+ "?"
           +:+ stringify (assign_query ord rest))
          (mkOptions
             (<["prefer" := "count=exact"]>
                (<["range" := range]>
                   (<["range-unit" := "items"]> (token_headers token))))
             None None)).
Proof.
  intros Htoken Haccepted. build_kind Htoken Haccepted.
  destruct (JS.get (prop params "pagination") "page") as [page|]; [|done].
  destruct (JS.get (prop params "pagination") "perPage") as [perPage|];
    [|done].
  destruct (JS.get (prop params "sort") "field") as [field|]; [|done].
  destruct (JS.get (prop params "sort") "order") as [order|]; [|done].
  cbn [mbind result_bind]. unfold authorized.
  rewrite (set_header_plain "Range-Unit" "items") by (vm_compute; reflexivity).
  cbn [mbind result_bind].
  destruct (range_header page perPage) as [range|] eqn:Hrange; [|done].
  cbn [mbind result_bind].
  rewrite (set_header_plain "Range" range)
    by (try (vm_compute; reflexivity); by eapply range_header_plain).
  cbn [mbind result_bind].
  by rewrite (set_header_plain "Prefer" "count=exact")
    by (vm_compute; reflexivity).
Qed.

Lemma build_GET_ONE storage token resource params :
  getItem storage "token" = Some token →
  token_accepted token = true →
  build storage GET_ONE resource params
  = u ← singleResourceUrl apiUrl stringify resource params;
    Ok (mkRequest u
          (mkOptions
             (<["accept" := "application/vnd.pgrst.object+json"]>
                (<["prefer" := "return=representation"]>
                   (token_headers token)))
             None None)).
Proof.
  intros Htoken Haccepted. build_kind Htoken Haccepted.
  unfold authorized. by rewrite single_response_headers_spec.
Qed.

Lemma build_GET_MANY storage token resource params :
  getItem storage "token" = Some token →
  token_accepted token = true →
  build storage GET_MANY resource params
  = joined ← call_join (prop params "ids") ",";
    Ok (mkRequest
          (apiUrl +:+ "/" +:+ resource +:+ "?id=in.(" +:+ joined +:+ ")")
          (authorized token)).
Proof. intros Htoken Haccepted. by build_kind Htoken Haccepted. Qed.

Lemma build_GET_MANY_REFERENCE storage token resource params :
  getItem storage "token" = Some token →
  token_accepted token = true →
  build storage GET_MANY_REFERENCE resource params
  = field ← JS.get (prop params "sort") "field";
    order ← JS.get (prop params "sort") "order";
    key ← to_string (prop params "target");
    ord ← order_parameter field order;
    rest ← convertFilters (VObj {[ key := prop params "id" ]});
    Ok (mkRequest
          (apiUrl +:+ "/" +:+ resource +:+ "?"
           +:+ stringify (assign_query ord rest))
          (authorized token)).
Proof. intros Htoken Haccepted. by build_kind Htoken Haccepted. Qed.

Lemma build_UPDATE storage token resource params :
  getItem storage "token" = Some token →
  token_accepted token = true →
  build storage UPDATE resource params
  = u ← singleResourceUrl apiUrl stringify resource params;
    Ok (mkRequest u
          (mkOptions
             (<["accept" := "application/vnd.pgrst.object+json"]>
                (<["prefer" := "return=representation"]>
                   (token_headers token)))
             (Some "PATCH") (JSON_stringify (prop params "data")))).
Proof.
  intros Htoken Haccepted. build_kind Htoken Haccepted.
  unfold authorized. by rewrite single_response_headers_spec.
Qed.

Lemma build_CREATE storage token resource params :
  getItem storage "token" = Some token →
  token_accepted token = true →
  build storage CREATE resource params
  = Ok (mkRequest (apiUrl +:+ "/" +:+ resource)
          (mkOptions
             (<["accept" := "application/vnd.pgrst.object+json"]>
                (<["prefer" := "return=representation"]>
                   (token_headers token)))
             (Some "POST") (JSON_stringify (prop params "data")))).
Proof.
  intros Htoken Haccepted. build_kind Htoken Haccepted.
  unfold authorized. by rewrite single_response_headers_spec.
Qed.

Lemma build_DELETE storage token resource params :
  getItem storage "token" = Some token →
  token_accepted token = true →
  build storage DELETE resource params
  = u ← singleResourceUrl apiUrl stringify resource params;
    Ok (mkRequest u (mkOptions (token_headers token) (Some "DELETE") None)).
Proof. intros Htoken Haccepted. by build_kind Htoken Haccepted. Qed.

(** The stored token and the kind of every request that is built. *)
Lemma build_Ok_inv storage type resource params request :
  build storage type resource params = Ok request →
  ∃ token, getItem storage "token" = Some token
           ∧ token_accepted token = true ∧ type ∈ supported.
Proof.
  intros H.
  destruct (getItem storage "token") as [token|] eqn:Htoken;
    [|by rewrite build_without_token in H].
  destruct (token_accepted token) eqn:Haccepted;
    [|by rewrite (build_with_refused_token _ _ _ _ _ Htoken Haccepted) in H].
  exists token. split; [done|]. split; [done|].
  destruct (decide (type ∈ supported)) as [Hkind|Hkind]; [done|].
  by rewrite (build_unsupported _ _ _ _ _ Htoken Haccepted Hkind) in H.
Qed.

Ltac by_kind H token Htoken Haccepted :=
  let Hkind := fresh "Hkind" in
  destruct (build_Ok_inv _ _ _ _ _ H) as (token & Htoken & Haccepted & Hkind);
  unfold supported in Hkind; rewrite !elem_of_cons in Hkind;
  destruct Hkind as [->|[->|[->|[->|[->|[->|[->|[]%elem_of_nil]]]]]]];
  [ rewrite (build_GET_LIST _ _ _ _ Htoken Haccepted) in H
  | rewrite (build_GET_ONE _ _ _ _ Htoken Haccepted) in H
  | rewrite (build_GET_MANY _ _ _ _ Htoken Haccepted) in H
  | rewrite (build_GET_MANY_REFERENCE _ _ _ _ Htoken Haccepted) in H
  | rewrite (build_CREATE _ _ _ _ Htoken Haccepted) in H
  | rewrite (build_UPDATE _ _ _ _ Htoken Haccepted) in H
  | rewrite (build_DELETE _ _ _ _ Htoken Haccepted) in H ];
  inv_binds H; injection H as <-.

(** The headers of every request that is built. *)
Lemma build_headers storage type resource params request :
  build storage type resource params = Ok request →
  ∃ token range,
    getItem storage "token" = Some token
    ∧ token_accepted token = true
    ∧ type ∈ supported
    ∧ headers (options request)
      = kind_headers type range (token_headers token).
Proof.
  intros H. pose proof (build_Ok_inv _ _ _ _ _ H) as (_ & _ & _ & Hin).
  by_kind H token Htoken Haccepted; exists token; eexists;
    (split; [done|]); (split; [done|]); (split; [done|]);
    cbn [headers options authorized]; unfold kind_headers.
  all: repeat (case_decide as Hd;
               [ try reflexivity; try solve [exfalso; clear -Hd; kinds]
               | try reflexivity;
                 try solve [exfalso; apply Hd; clear Hd; kinds] ]).
  Unshelve. all: exact "".
Qed.

Lemma token_headers_other token name :
  name ≠ "authorization" → token_headers token !! name = None.
Proof.
  intros Hne. unfold token_headers. destruct (_ <? _)%nat; [|done].
  by apply lookup_singleton_ne.
Qed.

(** The kinds without a single-object rule never get an [Accept] header:
    the branch that would attach [application/json] is guarded by
    [!options.headers], and [options.headers] has just been created. *)
Lemma generic_accept_header_unreachable storage type resource params request :
  build storage type resource params = Ok request →
  type ∈ [GET_LIST; GET_MANY; GET_MANY_REFERENCE; DELETE] →
  Headers.has "Accept" (headers (options request)) = false.
Proof.
  intros (token & range & _ & _ & _ & ->)%build_headers Hkind.
  unfold Headers.has. change (toLowerCase "Accept") with "accept".
  apply bool_decide_eq_false. rewrite <-eq_None_not_Some.
  pose proof (token_headers_other token "accept") as Hbase.
  rewrite !elem_of_cons in Hkind.
  unfold kind_headers.
  destruct Hkind as [->|[->|[->|[->|[]%elem_of_nil]]]].
  all: repeat (case_decide as Hd; [try solve [exfalso; clear -Hd; kinds]|]).
  all: try (by apply Hbase).
  rewrite !lookup_insert_ne by discriminate. by apply Hbase.
Qed.

(** The single-object kinds ask for [application/vnd.pgrst.object+json]. *)
Lemma single_object_accept storage type resource params request :
  build storage type resource params = Ok request →
  type ∈ [GET_ONE; UPDATE; CREATE] →
  Headers.get "Accept" (headers (options request))
  = Some "application/vnd.pgrst.object+json".
Proof.
  intros (token & range & _ & _ & _ & ->)%build_headers Hkind.
  unfold Headers.get. change (toLowerCase "Accept") with "accept".
  rewrite !elem_of_cons in Hkind.
  unfold kind_headers.
  destruct Hkind as [->|[->|[->|[]%elem_of_nil]]].
  all: rewrite decide_False by kinds_ne.
  all: rewrite decide_True by (solve [kinds]).
  all: by rewrite lookup_insert_eq.
Qed.

(** A request that cannot be built never reaches the transport. *)
Lemma dispatch_build_throws w type resource params e :
  build (localStorage w) type resource params = Throw e →
  client w type resource params = (w, Throw e).
Proof. unfold dispatch. by intros ->. Qed.

(** A request that is built is handed to the transport once, and the
    outcome of the call is the decoded response. *)
Lemma dispatch_build_ok w type resource params request :
  build (localStorage w) type resource params = Ok request →
  client w type resource params
  = (mkWorld (localStorage w) (calls w ++ [request]),
     httpClient (url request) (options request)
     ≫= λ response, convertHTTPResponseToREST response type resource params).
Proof. unfold dispatch. by intros ->. Qed.

End Builder.

Lemma strip_trailing_keeps s :
  ends_with_whitespace s = false → Headers.strip_trailing s = s.
Proof.
  induction s as [|c s IH]; [done|].
  cbn [ends_with_whitespace Headers.strip_trailing].
  destruct s as [|c' s].
  - by intros ->.
  - intros Hs. by rewrite (IH Hs).
Qed.

Lemma ends_with_whitespace_app s t :
  t ≠ "" → ends_with_whitespace (s +:+ t) = ends_with_whitespace t.
Proof.
  intros Ht. induction s as [|c s IH]; [done|].
  change (String c s +:+ t) with (String c (s +:+ t)).
  cbn [ends_with_whitespace]. rewrite IH.
  destruct (s +:+ t) eqn:Hst; [|done].
  by destruct s, t.
Qed.

Lemma authorization_value_spec token :
  authorization_value token = Headers.strip_trailing ("Bearer " +:+ token).
Proof. done. Qed.

Lemma authorization_value_keeps token :
  token ≠ "" → ends_with_whitespace token = false →
  authorization_value token = "Bearer " +:+ token.
Proof.
  intros Hne Hends. rewrite authorization_value_spec.
  apply strip_trailing_keeps. by rewrite ends_with_whitespace_app.
Qed.

(** C1 (the code diverges from the claim).  The claim: every request of a
    supported kind carries [Accept: application/json] unless a rule of the
    kind overrides it.  The code: the only place that would attach the
    header is the branch under [if (!options.headers)], which cannot run
    because [options.headers] was assigned a fresh [Headers] object on the
    line before.  A [GET_MANY] request for the ids 123 and 456, with a short
    token in the store, is built with no header at all. *)
Theorem C1_generic_accept_header_never_attached :
  ∃ request,
    convertRESTRequestToHTTP "http://my.api.url" plain_stringify no_body
      {[ "token" := "" ]} GET_MANY "posts"
      {[ "ids" := VArr [VNum (Int 123); VNum (Int 456)] ]}
    = Ok request
    ∧ url request = "http://my.api.url/posts?id=in.(123,456)"
    ∧ headers (options request) = ∅
    ∧ Headers.get "Accept" (headers (options request)) = None.
Proof. eexists. repeat split; vm_compute; reflexivity. Qed.

(** C8, as stated, fails: [Headers.set] removes the whitespace at the ends
    of a value before storing it.  With the token [0123456789abcdef ] (17
    characters, the last a space) in the store, the request is built and its
    [Authorization] header is [Bearer 0123456789abcdef], which is not
    [Bearer ] followed by the token. *)
Lemma C8_token_with_trailing_space :
  let token := "0123456789abcdef " in
  ∃ request,
    convertRESTRequestToHTTP "http://my.api.url" plain_stringify no_body
      {[ "token" := token ]} GET_MANY "posts"
      {[ "ids" := VArr [VNum (Int 123)] ]} = Ok request
    ∧ (16 < String.length token)%nat
    ∧ Headers.get "Authorization" (headers (options request))
      = Some "Bearer 0123456789abcdef"
    ∧ Headers.get "Authorization" (headers (options request))
      ≠ Some ("Bearer " +:+ token).
Proof.
  intros token. eexists. split; [vm_compute; reflexivity|].
  split; [vm_compute; lia|]. split; [vm_compute; reflexivity|].
  vm_compute. discriminate.
Qed.

(** C8, amended.  For every stored token [t]: when [t] has more than 16
    characters and its [Authorization] value is one the platform refuses
    (it holds NUL, LF or CR once the whitespace at its ends is gone), no
    request is built and the builder throws a [TypeError]; and in every
    request that is built, there is no [Authorization] header when [t] has
    at most 16 characters, and when it has more than 16 the header holds
    [Bearer t] without the whitespace at its end, which is [Bearer t]
    itself when [t] does not end in whitespace. *)
Theorem C8_authorization_gate (apiUrl : string)
    (stringify : gmap string string → string)
    (JSON_stringify : value → option string)
    (storage : gmap string string) (token type resource : string)
    (params : gmap string value) :
  getItem storage "token" = Some token →
  ((16 < String.length token)%nat →
   Headers.valid_value (Headers.strip_trailing ("Bearer " +:+ token))
   = false →
   convertRESTRequestToHTTP apiUrl stringify JSON_stringify
     storage type resource params = Throw TypeError)
  ∧ ∀ request,
      convertRESTRequestToHTTP apiUrl stringify JSON_stringify
        storage type resource params = Ok request →
      ((String.length token ≤ 16)%nat →
       Headers.has "Authorization" (headers (options request)) = false)
      ∧ ((16 < String.length token)%nat →
         Headers.get "Authorization" (headers (options request))
         = Some (Headers.strip_trailing ("Bearer " +:+ token))
         ∧ (ends_with_whitespace token = false →
            Headers.get "Authorization" (headers (options request))
            = Some ("Bearer " +:+ token))).
Proof.
  intros Htoken. split.
  { intros Hlen Hrefused.
    apply (build_with_refused_token _ _ _ _ token); [done|].
    unfold token_accepted. rewrite authorization_value_spec, Hrefused.
    by rewrite (proj2 (Nat.leb_gt _ _)). }
  intros request (token' & range & Htoken' & _ & _ & ->)%build_headers.
  assert (token' = token) as -> by congruence.
  unfold Headers.has, Headers.get.
  change (toLowerCase "Authorization") with "authorization".
  assert (kind_headers type range (token_headers token) !! "authorization"
          = token_headers token !! "authorization") as ->.
  { unfold kind_headers.
    repeat case_decide; by rewrite ?lookup_insert_ne by discriminate. }
  unfold token_headers. split; intros Hlen.
  - apply Nat.ltb_ge in Hlen as ->. by rewrite lookup_empty.
  - pose proof Hlen as Hlt. apply Nat.ltb_lt in Hlt as ->.
    rewrite lookup_singleton_eq. split; [done|].
    intros Hends. rewrite authorization_value_keeps; [done| |done].
    intros ->. simpl in Hlen. lia.
Qed.

(** A [GET_ONE] request built with a token of 17 characters in the store,
    and one that is not built because the stored token, of 18 characters,
    holds a line feed. *)
Lemma C8_authorization_gate_witness :
  let storage : gmap string string := {[ "token" := "0123456789abcdefg" ]} in
  let request :=
    mkRequest "http://my.api.url/posts?id=eq.123"
      (mkOptions
         {[ "authorization" := "Bearer 0123456789abcdefg";
            "prefer" := "return=representation";
            "accept" := "application/vnd.pgrst.object+json" ]}
         None None) in
  let broken := "0123456789abcdef" +:+ String "010" "x" in
  (convertRESTRequestToHTTP "http://my.api.url" plain_stringify no_body
     storage GET_ONE "posts" {[ "id" := VNum (Int 123) ]} = Ok request
   ∧ Headers.get "Authorization" (headers (options request))
     = Some "Bearer 0123456789abcdefg")
  ∧ convertRESTRequestToHTTP "http://my.api.url" plain_stringify no_body
      {[ "token" := broken ]} GET_ONE "posts" {[ "id" := VNum (Int 123) ]}
    = Throw TypeError.
Proof.
  intros storage request broken. split; [split|].
  - vm_compute; reflexivity.
  - destruct (C8_authorization_gate "http://my.api.url" plain_stringify
                no_body storage "0123456789abcdefg" GET_ONE "posts"
                {[ "id" := VNum (Int 123) ]})
      as [_ Hbuilt]; [vm_compute; reflexivity|].
    apply (Hbuilt request);
      [vm_compute; reflexivity|vm_compute; lia|vm_compute; reflexivity].
  - destruct (C8_authorization_gate "http://my.api.url" plain_stringify
                no_body {[ "token" := broken ]} broken GET_ONE "posts"
                {[ "id" := VNum (Int 123) ]})
      as [Hrefused _]; [vm_compute; reflexivity|].
    apply Hrefused; [vm_compute; lia|vm_compute; reflexivity].
Defined.

(** C10.  When the token store holds no token, reading the length of the
    [null] that [getItem] returns throws a [TypeError], whatever the kind
    and the parameters: no request is built, and the dispatcher fails with
    that error without calling the transport. *)
Theorem C10_missing_token_throws_before_transport (apiUrl : string)
    (httpClient : string → Options → result Response)
    (stringify : gmap string string → string)
    (JSON_stringify : value → option string)
    (w : World) (type resource : string)
    (params : gmap string value) :
  getItem (localStorage w) "token" = None →
  convertRESTRequestToHTTP apiUrl stringify JSON_stringify
    (localStorage w) type resource params = Throw TypeError
  ∧ dispatch apiUrl httpClient stringify JSON_stringify
      w type resource params = (w, Throw TypeError).
Proof.
  intros Htoken.
  pose proof (build_without_token apiUrl stringify JSON_stringify
                _ type resource params Htoken) as Hbuild.
  split; [done|]. by apply dispatch_build_throws.
Qed.

Lemma C10_missing_token_throws_before_transport_witness :
  dispatch "http://my.api.url" offline plain_stringify no_body
    (mkWorld ∅ []) GET_ONE "posts" {[ "id" := VNum (Int 123) ]}
  = (mkWorld ∅ [], Throw TypeError).
Proof.
  apply (C10_missing_token_throws_before_transport "http://my.api.url"
           offline plain_stringify no_body (mkWorld ∅ [])).
  vm_compute; reflexivity.
Defined.







(** ** The response decoder *)

Lemma split_absent (c : ascii) (s : string) :
  contains c s = false → split c s = [s].
Proof.
  induction s as [|a s IH]; simpl; [done|].
  destruct (Ascii.eqb a c); simpl; [done|].
  intros H. by rewrite IH.
Qed.

Lemma split_at_first (c : ascii) (pre post : string) :
  contains c pre = false →
  split c (pre +:+ String c post) = pre :: split c post.
Proof.
  induction pre as [|a pre IH]; simpl.
  - by rewrite Ascii.eqb_refl.
  - destruct (Ascii.eqb a c); simpl; [done|].
    intros H. by rewrite IH.
Qed.

Lemma append_assoc (s t u : string) : (s +:+ t) +:+ u = s +:+ t +:+ u.
Proof.
  induction s as [|a s IH]; [done|].
  change (String a ((s +:+ t) +:+ u) = String a (s +:+ t +:+ u)).
  by rewrite IH.
Qed.

Lemma contains_app (c : ascii) (s t : string) :
  contains c (s +:+ t) = contains c s || contains c t.
Proof.
  induction s as [|a s IH]; simpl; [done|].
  by rewrite IH, orb_assoc.
Qed.

(** The total computed from a header of the form [start-end/segment]:
    [parseInt(segment) || parseInt(end) + 1]. *)
Lemma content_range_total_spec (start end_ segment : string) :
  contains "/" start = false → contains "-" start = false →
  contains "/" end_ = false → contains "-" end_ = false →
  contains "/" segment = false →
  content_range_total (start +:+ "-" +:+ end_ +:+ "/" +:+ segment)
  = Ok (num_or (parseInt segment) (num_add (parseInt end_) (Int 1))).
Proof.
  intros Hs1 Hs2 He1 He2 Hseg. unfold content_range_total.
  assert (split "/" (start +:+ "-" +:+ end_ +:+ "/" +:+ segment)
          = [start +:+ "-" +:+ end_; segment]) as ->.
  { replace (start +:+ "-" +:+ end_ +:+ "/" +:+ segment)
      with ((start +:+ "-" +:+ end_) +:+ String "/" segment).
    - rewrite split_at_first.
      + by rewrite split_absent.
      + rewrite !contains_app, Hs1, He1. reflexivity.
    - by rewrite !append_assoc. }
  unfold pop, num_or.
  cbn [last removelast default from_option id lookup list_lookup].
  destruct (number_truthy (parseInt segment)); [done|].
  change (start +:+ "-" +:+ end_) with (start +:+ String "-" end_).
  by rewrite split_at_first, split_absent.
Qed.

Lemma content_range_total_declared (start end_ segment : string) (n : Z) :
  contains "/" start = false → contains "-" start = false →
  contains "/" end_ = false → contains "-" end_ = false →
  contains "/" segment = false →
  parseInt segment = Int n → n ≠ 0%Z →
  content_range_total (start +:+ "-" +:+ end_ +:+ "/" +:+ segment)
  = Ok (Int n).
Proof.
  intros. rewrite content_range_total_spec by done.
  unfold num_or. replace (parseInt segment) with (Int n). simpl.
  by destruct (Z.eqb_spec n 0).
Qed.

Lemma content_range_total_derived (start end_ segment : string) :
  contains "/" start = false → contains "-" start = false →
  contains "/" end_ = false → contains "-" end_ = false →
  contains "/" segment = false →
  parseInt segment = NaN →
  content_range_total (start +:+ "-" +:+ end_ +:+ "/" +:+ segment)
  = Ok (num_add (parseInt end_) (Int 1)).
Proof.
  intros. rewrite content_range_total_spec by done.
  unfold num_or. by replace (parseInt segment) with NaN.
Qed.

(** A creation from end to end: one call of the transport, and the
    submitted record with the identifier chosen by the server. *)
Example dispatch_create :
  dispatch "http://my.api.url" created_42 plain_stringify no_body
    (mkWorld {[ "token" := "" ]} []) CREATE "posts"
    {[ "data" := VObj {[ "name" := VStr "x" ]} ]}
  = (mkWorld {[ "token" := "" ]}
       [mkRequest "http://my.api.url/posts"
          (mkOptions
             {[ "prefer" := "return=representation";
                "accept" := "application/vnd.pgrst.object+json" ]}
             (Some "POST") None)],
     Ok (mkREST (VObj {[ "name" := VStr "x"; "id" := VNum (Int 42) ]})
           None)).
Proof. vm_compute; reflexivity. Qed.

(** A deletion is acknowledged with an empty record, whatever the body. *)
Lemma delete_decodes_to_empty_record (response : Response)
    (resource : string) (params : gmap string value) :
  convertHTTPResponseToREST response DELETE resource params
  = Ok (mkREST (VObj ∅) None).
Proof.
  unfold convertHTTPResponseToREST.
  rewrite decide_False by (intros [?|?]; kinds_ne).
  rewrite decide_False by kinds_ne. by rewrite decide_True.
Qed.

(** The two headers of the specification's examples. *)
Example content_range_0_9_of_23 :
  content_range_total "0-9/23" = Ok (Int 23).
Proof. vm_compute; reflexivity. Qed.

Example content_range_0_9_of_unknown :
  content_range_total "0-9/*" = Ok (Int 10).
Proof. vm_compute; reflexivity. Qed.

(** PostgREST's header for an empty table: the declared total is lost as
    well, and there is no end of range to fall back on. *)
Example content_range_of_empty_table :
  content_range_total "*/0" = Ok NaN.
Proof. vm_compute; reflexivity. Qed.

(** C3 (the code diverges from the claim).  The claim: when the segment
    after the slash is a valid integer the total is that integer, and only
    otherwise is it derived as [end + 1].  The code joins the two with
    [||], which also discards a declared total of [0], a valid integer that
    is falsy: for [Content-Range: 0-9/0] the decoded total is [10]. *)
Theorem C3_declared_total_zero_is_replaced :
  convertHTTPResponseToREST
    (mkResponse {[ "content-range" := "0-9/0" ]} (VArr []))
    GET_LIST "posts" ∅
  = Ok (mkREST (VArr []) (Some (Int 10))).
Proof. vm_compute; reflexivity. Qed.

(** A list response without [Content-Range] is rejected before its body is
    looked at. *)
Lemma decoder_requires_content_range (response : Response)
    (type resource : string) (params : gmap string value) :
  type = GET_LIST ∨ type = GET_MANY_REFERENCE →
  Headers.has "Content-Range" (response_headers response) = false →
  convertHTTPResponseToREST response type resource params
  = Throw (Error missing_content_range).
Proof.
  intros Hkind Hmissing. unfold convertHTTPResponseToREST.
  rewrite decide_True by done.
  change (Headers.has "content-range") with (Headers.has "Content-Range").
  by rewrite Hmissing.
Qed.

(** The dispatcher passes that failure on: it is the outcome of the call. *)
Lemma dispatch_requires_content_range (apiUrl : string)
    (httpClient : string → Options → result Response)
    (stringify : gmap string string → string)
    (JSON_stringify : value → option string)
    (w : World) (type resource : string) (params : gmap string value)
    (request : Request) (response : Response) :
  type = GET_LIST ∨ type = GET_MANY_REFERENCE →
  convertRESTRequestToHTTP apiUrl stringify JSON_stringify
    (localStorage w) type resource params = Ok request →
  httpClient (url request) (options request) = Ok response →
  Headers.has "Content-Range" (response_headers response) = false →
  snd (dispatch apiUrl httpClient stringify JSON_stringify
         w type resource params)
  = Throw (Error missing_content_range).
Proof.
  intros Hkind Hbuild Hcall Hmissing.
  rewrite (dispatch_build_ok _ _ _ _ _ _ _ _ _ Hbuild). cbn [snd].
  rewrite Hcall. by apply decoder_requires_content_range.
Qed.

(** C6.  When the response to a [GET_LIST] or [GET_MANY_REFERENCE] call
    has no [Content-Range] header, the decoder throws the error whose
    message names the header and CORS; it returns no result. *)
Theorem C6_missing_content_range (response : Response)
    (type resource : string) (params : gmap string value) :
  type = GET_LIST ∨ type = GET_MANY_REFERENCE →
  Headers.has "Content-Range" (response_headers response) = false →
  convertHTTPResponseToREST response type resource params
  = Throw (Error missing_content_range)
  ∧ is_Some (String.index 0 "Content-Range" missing_content_range)
  ∧ is_Some (String.index 0 "CORS" missing_content_range).
Proof.
  intros Hkind Hmissing. split; [|split; vm_compute; eauto].
  by apply decoder_requires_content_range.
Qed.

Lemma C6_missing_content_range_witness :
  convertHTTPResponseToREST
    (mkResponse {[ "content-type" := "application/json" ]}
       (VArr [VObj {[ "id" := VNum (Int 1) ]}]))
    GET_LIST "posts" ∅
  = Throw (Error missing_content_range).
Proof.
  apply C6_missing_content_range; [by left|vm_compute; reflexivity].
Defined.

(** C4.  For a [CREATE] call that submitted the record [d] and a response
    body [r], the decoded result is [{ data }] with [data] equal to [d]
    updated at [id] with [r.id]: every other field is the submitted one,
    and any response body with the same [id] decodes to the same result. *)
Theorem C4_create_adopts_only_the_id (response_headers : gmap string string)
    (r d : gmap string value) (resource : string)
    (params : gmap string value) :
  params !! "data" = Some (VObj d) →
  ∃ merged,
    convertHTTPResponseToREST (mkResponse response_headers (VObj r))
      CREATE resource params
    = Ok (mkREST (VObj merged) None)
    ∧ merged = <["id" := default VUndefined (r !! "id")]> d
    ∧ merged !! "id" = Some (default VUndefined (r !! "id"))
    ∧ (∀ field, field ≠ "id" → merged !! field = d !! field)
    ∧ (∀ r', r' !! "id" = r !! "id" →
         convertHTTPResponseToREST (mkResponse response_headers (VObj r'))
           CREATE resource params
         = Ok (mkREST (VObj merged) None)).
Proof.
  intros Hdata. eexists.
  assert (∀ r0,
            convertHTTPResponseToREST
              (mkResponse response_headers (VObj r0)) CREATE resource params
            = Ok (mkREST
                    (VObj (<["id" := default VUndefined (r0 !! "id")]> d))
                    None)) as Hdecode.
  { intros r0. unfold convertHTTPResponseToREST.
    rewrite decide_False by (intros [?|?]; kinds_ne).
    rewrite decide_True by done.
    cbn [json JS.get]. unfold prop. by rewrite Hdata. }
  split; [apply Hdecode|]. split; [done|]. split; [apply lookup_insert_eq|].
  split.
  - intros field Hne. by rewrite lookup_insert_ne.
  - intros r' Hid. rewrite Hdecode. by rewrite Hid.
Qed.

(** The example of C4: [{name: "x"}] submitted, [{id: 42, name: "y",
    extra: "z"}] received. *)
Lemma C4_create_adopts_only_the_id_witness :
  convertHTTPResponseToREST
    (mkResponse ∅
       (VObj {[ "id" := VNum (Int 42); "name" := VStr "y";
                "extra" := VStr "z" ]}))
    CREATE "posts" {[ "data" := VObj {[ "name" := VStr "x" ]} ]}
  = Ok (mkREST (VObj {[ "name" := VStr "x"; "id" := VNum (Int 42) ]}) None).
Proof.
  destruct (C4_create_adopts_only_the_id ∅
              {[ "id" := VNum (Int 42); "name" := VStr "y";
                 "extra" := VStr "z" ]}
              {[ "name" := VStr "x" ]} "posts"
              {[ "data" := VObj {[ "name" := VStr "x" ]} ]})
    as (merged & -> & -> & _); [vm_compute; reflexivity|].
  vm_compute; reflexivity.
Defined.

(** * Further properties of the client *)

(** ** Failures are type errors *)

Lemma get_throws v name e : JS.get v name = Throw e → e = TypeError.
Proof. destruct v; simpl; try discriminate; by intros [= <-]. Qed.

Lemma get_Ok_not_nullish v name x : JS.get v name = Ok x → nullish v = false.
Proof. by destruct v. Qed.

Lemma to_number_throws v e : to_number v = Throw e → e = TypeError.
Proof.
  destruct v as [| |b|n|s|l|m]; try discriminate; unfold to_number;
    by intros [H%to_string_throws|(a & _ & [=])]%bind_Throw.
Qed.

Lemma range_header_throws page perPage e :
  range_header page perPage = Throw e → e = TypeError.
Proof.
  unfold range_header.
  intros [H|(p & _ & [H|(pp & _ & [=])]%bind_Throw)]%bind_Throw;
    by apply to_number_throws in H.
Qed.

Lemma order_parameter_throws field order e :
  order_parameter field order = Throw e → e = TypeError.
Proof.
  unfold order_parameter.
  intros [H|(f & _ & [H|(o & _ & [=])]%bind_Throw)]%bind_Throw.
  - by apply to_string_throws in H.
  - destruct order; simpl in H; try discriminate; by injection H as <-.
Qed.

Lemma call_join_throws v sep e : call_join v sep = Throw e → e = TypeError.
Proof.
  destruct v as [| |b|n|s|l|m]; simpl; try (by intros [= <-]).
  intros [H|(a & _ & [=])]%bind_Throw. revert H.
  induction l as [|x l IH]; [discriminate|].
  change (mapM ?f (x :: l)) with (y ← f x; k ← mapM f l; mret (y :: k)).
  intros [H|(a & _ & [H|(b & _ & [=])]%bind_Throw)]%bind_Throw.
  - destruct x; try discriminate; by apply to_string_throws in H.
  - by apply IH.
Qed.

Lemma convertFilters_value_throws v e :
  convertFilters v = Throw e → e = TypeError.
Proof.
  unfold convertFilters. intros [H|(props & _ & H)]%bind_Throw.
  - destruct v; simpl in H; try discriminate; by injection H as <-.
  - pose proof (convertFilters_loop props) as Hloop. rewrite H in Hloop.
    by destruct Hloop as (k & x & _ & [-> _]%convertFilter_throws).
Qed.

Lemma convertFilters_Ok_not_nullish v rest :
  convertFilters v = Ok rest → nullish v = false.
Proof. by destruct v. Qed.

(** The filter that [GET_MANY_REFERENCE] builds has one field. *)
Lemma convertFilters_singleton (key : string) (v : value) :
  convertFilters (VObj {[ key := v ]})
  = s ← convertFilter v; Ok {[ key := s ]}.
Proof.
  unfold convertFilters. cbn [entries own_properties mbind result_bind].
  rewrite map_fold_singleton. unfold convertFilters_step.
  cbn [mbind result_bind]. destruct (convertFilter v); [|done].
  cbn [mbind result_bind]. by rewrite insert_empty.
Qed.

(** Joining an array of integers. *)
Lemma mapM_numbers (ids : list Z) :
  mapM (λ x, match x with
             | VUndefined | VNull => Ok ""
             | _ => to_string x
             end) ((λ z, VNum (Int z)) <$> ids)
  = Ok (pretty <$> ids).
Proof.
  induction ids as [|z ids IH]; [done|].
  rewrite !fmap_cons.
  change (mapM ?f (?x :: ?l)) with (y ← f x; k ← mapM f l; mret (y :: k)).
  by rewrite IH.
Qed.


(** ** What the request builder throws *)

Section Kinds.

Variable apiUrl : string.
Variable stringify : gmap string string → string.
Variable JSON_stringify : value → option string.

Abbreviation build_request :=
  (convertRESTRequestToHTTP apiUrl stringify JSON_stringify).

Lemma singleResourceUrl_throws resource params e :
  singleResourceUrl apiUrl stringify resource params = Throw e →
  e = TypeError.
Proof.
  unfold singleResourceUrl.
  by intros [H%to_string_throws|(a & _ & [=])]%bind_Throw.
Qed.

Ltac throws H :=
  repeat (apply bind_Throw in H as [H|(? & _ & H)];
          [ solve [eauto using get_throws, to_string_throws,
                     range_header_throws, order_parameter_throws,
                     call_join_throws, convertFilters_value_throws,
                     singleResourceUrl_throws] | ]);
  discriminate H.

(** Whatever the builder throws is a [TypeError], except for a kind it
    does not know. *)
Lemma build_throws storage type resource params e :
  build_request storage type resource params = Throw e →
  e = TypeError
  ∨ ((type ∉ supported)
     ∧ e = Error ("Unsupported fetch action type " +:+ type)).
Proof.
  destruct (getItem storage "token") as [token|] eqn:Htoken.
  2: { rewrite build_without_token by done. intros [= <-]. by left. }
  destruct (token_accepted token) eqn:Haccepted.
  2: { rewrite (build_with_refused_token apiUrl stringify JSON_stringify
                  storage token type resource params Htoken Haccepted).
       intros [= <-]. by left. }
  destruct (decide (type ∈ supported)) as [Hkind|Hkind].
  2: { rewrite (build_unsupported apiUrl stringify JSON_stringify
                  storage token type resource params Htoken Haccepted Hkind).
       intros [= <-]. by right. }
  intros H. left. unfold supported in Hkind. rewrite !elem_of_cons in Hkind.
  destruct Hkind as [->|[->|[->|[->|[->|[->|[->|[]%elem_of_nil]]]]]]].
  - rewrite (build_GET_LIST _ _ _ _ _ _ _ Htoken Haccepted) in H. throws H.
  - rewrite (build_GET_ONE _ _ _ _ _ _ _ Htoken Haccepted) in H. throws H.
  - rewrite (build_GET_MANY _ _ _ _ _ _ _ Htoken Haccepted) in H. throws H.
  - rewrite (build_GET_MANY_REFERENCE _ _ _ _ _ _ _ Htoken Haccepted) in H.
    throws H.
  - by rewrite (build_CREATE _ _ _ _ _ _ _ Htoken Haccepted) in H.
  - rewrite (build_UPDATE _ _ _ _ _ _ _ Htoken Haccepted) in H. throws H.
  - rewrite (build_DELETE _ _ _ _ _ _ _ Htoken Haccepted) in H. throws H.
Qed.

End Kinds.

(** ** The requests, the filters, the responses and the dispatcher *)

(** X1.  With a stored token that the builder gets past, a [GET_LIST] call
    with a [page] and a [perPage] that are integers from 1 on whose product
    is a safe integer, a sort field and order given as strings and filters
    the encoder accepts is built into a request without method or body
    whose headers are [Range-Unit: items],
    [Range: (page-1)*perPage-(page*perPage-1)] and [Prefer: count=exact] on
    top of the token's, and whose query holds the encoded filters and
    [order=field.order] with the order in lower case.  Within these bounds
    the products are exact in doubles and print in full. *)
Theorem list_request_of_well_formed_parameters (apiUrl : string)
    (stringify : gmap string string → string)
    (JSON_stringify : value → option string)
    (storage : gmap string string) (token resource : string)
    (params pagination sort filters : gmap string value)
    (rest : gmap string string) (p n : Z) (f o : string) :
  getItem storage "token" = Some token →
  token_accepted token = true →
  (1 ≤ p)%Z → (1 ≤ n)%Z → (p * n ≤ 2 ^ 53 - 1)%Z →
  params !! "pagination" = Some (VObj pagination) →
  pagination !! "page" = Some (VNum (Int p)) →
  pagination !! "perPage" = Some (VNum (Int n)) →
  params !! "sort" = Some (VObj sort) →
  sort !! "field" = Some (VStr f) →
  sort !! "order" = Some (VStr o) →
  params !! "filter" = Some (VObj filters) →
  convertFilters (VObj filters) = Ok rest →
  convertRESTRequestToHTTP apiUrl stringify JSON_stringify
    storage GET_LIST resource params
  = Ok (mkRequest
          (apiUrl +:+ "/" +:+ resource +:+ "?"
           +:+ stringify
                 (rest ∪ {[ "order" := f +:+ "." +:+ toLowerCase o ]}))
          (mkOptions
             (<["prefer" := "count=exact"]>
                (<["range" := pretty ((p - 1) * n)%Z +:+ "-"
                              +:+ pretty (p * n - 1)%Z]>
                   (<["range-unit" := "items"]> (token_headers token))))
             None None)).
Proof.
  intros Htoken Haccepted _ _ _.
  intros Hpag Hpage HperPage Hsort Hfield Horder Hfilter Hrest.
  rewrite (build_GET_LIST _ _ _ _ _ _ _ Htoken Haccepted).
  unfold prop. rewrite Hpag, Hsort, Hfilter.
  cbn [default from_option id JS.get].
  unfold prop. rewrite Hpage, HperPage, Hfield, Horder.
  cbn [default from_option id mbind result_bind].
  rewrite Hrest. done.
Qed.

Lemma list_request_of_well_formed_parameters_witness :
  convertRESTRequestToHTTP "http://my.api.url" plain_stringify no_body
    {[ "token" := "" ]} GET_LIST "posts"
    {[ "pagination" := VObj {[ "page" := VNum (Int 3);
                               "perPage" := VNum (Int 25) ]};
       "sort" := VObj {[ "field" := VStr "title"; "order" := VStr "DESC" ]};
       "filter" := VObj {[ "published" := VBool true ]} ]}
  = Ok (mkRequest
          ("http://my.api.url" +:+ "/" +:+ "posts" +:+ "?"
           +:+ plain_stringify
                 ({[ "published" := "is.true" ]}
                  ∪ {[ "order" := "title" +:+ "." +:+ toLowerCase "DESC" ]}))
          (mkOptions
             (<["prefer" := "count=exact"]>
                (<["range" := pretty ((3 - 1) * 25)%Z +:+ "-"
                              +:+ pretty (3 * 25 - 1)%Z]>
                   (<["range-unit" := "items"]> (token_headers ""))))
             None None)).
Proof.
  apply (list_request_of_well_formed_parameters "http://my.api.url"
           plain_stringify no_body {[ "token" := "" ]} "" "posts" _
           {[ "page" := VNum (Int 3); "perPage" := VNum (Int 25) ]}
           {[ "field" := VStr "title"; "order" := VStr "DESC" ]}
           {[ "published" := VBool true ]});
    first [vm_compute; reflexivity | lia].
Defined.

(** X2.  For a page [p] and a page size [n] that are integers from 1 on
    with [(p + 1) * n] a safe integer, so that every product is exact in
    doubles and prints in full: the range asked for page [p] spans [n]
    rows, the range of page [p + 1] starts right after it, and the first
    page starts at row [0]. *)
Theorem list_pages_are_contiguous (p n : Z) :
  (1 ≤ p)%Z → (1 ≤ n)%Z → ((p + 1) * n ≤ 2 ^ 53 - 1)%Z →
  ∃ first last : Z,
    range_header (VNum (Int p)) (VNum (Int n))
    = Ok (pretty first +:+ "-" +:+ pretty last)
    ∧ (last - first + 1 = n)%Z
    ∧ range_header (VNum (Int (p + 1))) (VNum (Int n))
      = Ok (pretty (last + 1)%Z +:+ "-" +:+ pretty (last + n)%Z)
    ∧ (p = 1%Z → first = 0%Z).
Proof.
  intros _ _ _.
  exists ((p - 1) * n)%Z, (p * n - 1)%Z. split; [done|]. split; [lia|].
  split; [|intros ->; lia].
  unfold range_header.
  cbn [to_number mbind result_bind num_mul num_sub lift2 number_to_string].
  by replace ((p + 1 - 1) * n)%Z with (p * n - 1 + 1)%Z by lia;
     replace ((p + 1) * n - 1)%Z with (p * n - 1 + n)%Z by lia.
Qed.

(** Pages 2 and 3 of ten rows: rows 10 to 19, then rows 20 to 29. *)
Lemma list_pages_are_contiguous_witness :
  ∃ first last : Z,
    range_header (VNum (Int 2)) (VNum (Int 10))
    = Ok (pretty first +:+ "-" +:+ pretty last)
    ∧ (last - first + 1 = 10)%Z
    ∧ range_header (VNum (Int (2 + 1))) (VNum (Int 10))
      = Ok (pretty (last + 1)%Z +:+ "-" +:+ pretty (last + 10)%Z)
    ∧ (2%Z = 1%Z → first = 0%Z).
Proof. apply (list_pages_are_contiguous 2 10); lia. Defined.

(** X3.  A [GET_LIST] call whose parameters lack [pagination], [sort] or
    [filter] (or hold [null] there) throws a [TypeError]: no request is
    built. *)
Theorem list_request_requires_pagination_sort_and_filter (apiUrl : string)
    (stringify : gmap string string → string)
    (JSON_stringify : value → option string)
    (storage : gmap string string) (resource : string)
    (params : gmap string value) :
  nullish (prop params "pagination") = true
  ∨ nullish (prop params "sort") = true
  ∨ nullish (prop params "filter") = true →
  convertRESTRequestToHTTP apiUrl stringify JSON_stringify
    storage GET_LIST resource params = Throw TypeError.
Proof.
  intros Hmissing.
  destruct (convertRESTRequestToHTTP _ _ _ _ _ _ _) as [request|e] eqn:H.
  - exfalso.
    destruct (build_Ok_inv _ _ _ _ _ _ _ _ H)
      as (token & Htoken & Haccepted & _).
    rewrite (build_GET_LIST _ _ _ _ _ _ _ Htoken Haccepted) in H.
    inv_binds H.
    repeat match goal with
           | Hget : JS.get _ _ = Ok _ |- _ =>
               apply get_Ok_not_nullish in Hget
           | Hf : convertFilters _ = Ok _ |- _ =>
               apply convertFilters_Ok_not_nullish in Hf
           end.
    destruct Hmissing as [?|[?|?]]; congruence.
  - apply build_throws in H as [->|[Hkind _]]; [done|].
    exfalso. apply Hkind. unfold supported. constructor.
Qed.

Lemma list_request_requires_pagination_sort_and_filter_witness :
  convertRESTRequestToHTTP "http://my.api.url" plain_stringify no_body
    {[ "token" := "" ]} GET_LIST "posts"
    {[ "pagination" := VObj {[ "page" := VNum (Int 1);
                               "perPage" := VNum (Int 10) ]};
       "sort" := VObj {[ "field" := VStr "id"; "order" := VStr "ASC" ]} ]}
  = Throw TypeError.
Proof.
  apply list_request_requires_pagination_sort_and_filter.
  right. right. vm_compute; reflexivity.
Defined.

(** X4.  Whatever the request builder throws is a [TypeError], or, for a
    kind outside the enumeration with a token in the store, the error
    [Unsupported fetch action type <kind>]. *)
Theorem builder_fails_in_two_ways (apiUrl : string)
    (stringify : gmap string string → string)
    (JSON_stringify : value → option string)
    (storage : gmap string string) (type resource : string)
    (params : gmap string value) (e : exn) :
  convertRESTRequestToHTTP apiUrl stringify JSON_stringify
    storage type resource params = Throw e →
  e = TypeError
  ∨ ((type ∉ supported) ∧ is_Some (getItem storage "token")
     ∧ e = Error ("Unsupported fetch action type " +:+ type)).
Proof.
  intros H. destruct (build_throws _ _ _ _ _ _ _ _ H) as [->|[Hkind ->]];
    [by left|].
  destruct (getItem storage "token") as [token|] eqn:Htoken.
  - right. eauto.
  - by rewrite build_without_token in H.
Qed.

Lemma builder_fails_in_two_ways_witness :
  Error "Unsupported fetch action type GET_TREE" = TypeError
  ∨ (("GET_TREE" ∉ supported)
     ∧ is_Some (getItem {[ "token" := "" ]} "token")
     ∧ Error "Unsupported fetch action type GET_TREE"
       = Error ("Unsupported fetch action type " +:+ "GET_TREE")).
Proof.
  apply (builder_fails_in_two_ways "http://my.api.url" plain_stringify
           no_body {[ "token" := "" ]} "GET_TREE" "posts" ∅).
  vm_compute; reflexivity.
Defined.

(** X5.  With a stored token that the builder gets past, a [GET_MANY]
    request for identifiers that are safe integers lists them between the
    parentheses of [id=in.(...)] in the order given, duplicates included,
    separated by commas; the URL does not go through [stringify], and the
    request has no method, no body and only the token's headers. *)
Theorem many_request_lists_ids_in_order (apiUrl : string)
    (stringify : gmap string string → string)
    (JSON_stringify : value → option string)
    (storage : gmap string string) (token resource : string)
    (params : gmap string value) (ids : list Z) :
  getItem storage "token" = Some token →
  token_accepted token = true →
  Forall safe_integer ids →
  params !! "ids" = Some (VArr ((λ z, VNum (Int z)) <$> ids)) →
  convertRESTRequestToHTTP apiUrl stringify JSON_stringify
    storage GET_MANY resource params
  = Ok (mkRequest
          (apiUrl +:+ "/" +:+ resource +:+ "?id=in.("
           +:+ join "," (pretty <$> ids) +:+ ")")
          (mkOptions (token_headers token) None None)).
Proof.
  intros Htoken Haccepted _ Hids.
  rewrite (build_GET_MANY _ _ _ _ _ _ _ Htoken Haccepted).
  unfold prop. rewrite Hids. cbn [default from_option id call_join].
  by rewrite mapM_numbers.
Qed.

Lemma many_request_lists_ids_in_order_witness :
  convertRESTRequestToHTTP "http://my.api.url" plain_stringify no_body
    {[ "token" := "" ]} GET_MANY "posts"
    {[ "ids" := VArr ((λ z, VNum (Int z)) <$> [7; 3; 7]%Z) ]}
  = Ok (mkRequest
          ("http://my.api.url" +:+ "/" +:+ "posts" +:+ "?id=in.("
           +:+ join "," (pretty <$> [7; 3; 7]%Z) +:+ ")")
          (mkOptions (token_headers "") None None)).
Proof.
  apply many_request_lists_ids_in_order;
    [vm_compute; reflexivity|vm_compute; reflexivity
    |repeat (constructor; [unfold safe_integer; lia|]); constructor
    |vm_compute; reflexivity].
Defined.

(** X6.  A [GET_MANY] call whose [ids] is missing or is not an array
    throws a [TypeError]. *)
Theorem many_request_requires_an_array (apiUrl : string)
    (stringify : gmap string string → string)
    (JSON_stringify : value → option string)
    (storage : gmap string string) (resource : string)
    (params : gmap string value) :
  (∀ ids, prop params "ids" ≠ VArr ids) →
  convertRESTRequestToHTTP apiUrl stringify JSON_stringify
    storage GET_MANY resource params = Throw TypeError.
Proof.
  intros Hids.
  destruct (getItem storage "token") as [token|] eqn:Htoken;
    [|by apply build_without_token].
  destruct (token_accepted token) eqn:Haccepted;
    [|by apply (build_with_refused_token _ _ _ _ token)].
  rewrite (build_GET_MANY _ _ _ _ _ _ _ Htoken Haccepted).
  destruct (prop params "ids") as [| |b|n|s|l|m]; try done.
  by destruct (Hids l).
Qed.

Lemma many_request_requires_an_array_witness :
  convertRESTRequestToHTTP "http://my.api.url" plain_stringify no_body
    {[ "token" := "" ]} GET_MANY "posts" {[ "ids" := VStr "1,2,3" ]}
  = Throw TypeError.
Proof.
  apply many_request_requires_an_array. intros ids. vm_compute. discriminate.
Defined.

(** X7.  Whenever [GET_ONE] builds a request, [UPDATE] and [DELETE] on the
    same resource and parameters build one for the same URL: [UPDATE] with
    the same headers, the method [PATCH] and the serialised [data] as body,
    [DELETE] with the method [DELETE], no body and only the token's
    headers: none for a token of at most 16 characters, and otherwise
    [Authorization] with [Bearer <token>] as the platform stores it,
    without the whitespace at its end. *)
Theorem update_and_delete_address_the_record_of_get_one (apiUrl : string)
    (stringify : gmap string string → string)
    (JSON_stringify : value → option string)
    (storage : gmap string string) (token resource : string)
    (params : gmap string value) (request : Request) :
  getItem storage "token" = Some token →
  convertRESTRequestToHTTP apiUrl stringify JSON_stringify
    storage GET_ONE resource params = Ok request →
  convertRESTRequestToHTTP apiUrl stringify JSON_stringify
    storage UPDATE resource params
  = Ok (mkRequest (url request)
          (mkOptions (headers (options request)) (Some "PATCH")
             (JSON_stringify (prop params "data"))))
  ∧ convertRESTRequestToHTTP apiUrl stringify JSON_stringify
      storage DELETE resource params
    = Ok (mkRequest (url request)
            (mkOptions (token_headers token) (Some "DELETE") None)).
Proof.
  intros Htoken H.
  destruct (build_Ok_inv _ _ _ _ _ _ _ _ H)
    as (token' & Htoken' & Haccepted & _).
  assert (token' = token) as -> by congruence.
  rewrite (build_GET_ONE _ _ _ _ _ _ _ Htoken Haccepted) in H. inv_bind H.
  injection H as <-.
  rewrite (build_UPDATE _ _ _ _ _ _ _ Htoken Haccepted).
  rewrite (build_DELETE _ _ _ _ _ _ _ Htoken Haccepted).
  by rewrite Ha.
Qed.

Lemma update_and_delete_address_the_record_of_get_one_witness :
  convertRESTRequestToHTTP "http://my.api.url" plain_stringify no_body
    {[ "token" := "" ]} DELETE "posts" {[ "id" := VNum (Int 12) ]}
  = Ok (mkRequest "http://my.api.url/posts?id=eq.12"
          (mkOptions (token_headers "") (Some "DELETE") None)).
Proof.
  apply (update_and_delete_address_the_record_of_get_one "http://my.api.url"
           plain_stringify no_body {[ "token" := "" ]} "" "posts"
           {[ "id" := VNum (Int 12) ]}
           (mkRequest "http://my.api.url/posts?id=eq.12"
              (mkOptions
                 {[ "prefer" := "return=representation";
                    "accept" := "application/vnd.pgrst.object+json" ]}
                 None None)));
    vm_compute; reflexivity.
Defined.

(** X8.  With a stored token that the builder gets past (one of at most 16
    characters, or a longer one whose [Authorization] value the platform
    accepts), a [GET_ONE] call without an [id] does not fail: it asks for
    the record whose id equals the text [undefined]. *)
Theorem single_resource_request_without_id (apiUrl : string)
    (stringify : gmap string string → string)
    (JSON_stringify : value → option string)
    (storage : gmap string string) (token resource : string)
    (params : gmap string value) :
  getItem storage "token" = Some token →
  token_accepted token = true →
  params !! "id" = None →
  convertRESTRequestToHTTP apiUrl stringify JSON_stringify
    storage GET_ONE resource params
  = Ok (mkRequest
          (apiUrl +:+ "/" +:+ resource +:+ "?"
           +:+ stringify {[ "id" := "eq.undefined" ]})
          (mkOptions
             (<["accept" := "application/vnd.pgrst.object+json"]>
                (<["prefer" := "return=representation"]>
                   (token_headers token)))
             None None)).
Proof.
  intros Htoken Haccepted Hid.
  rewrite (build_GET_ONE _ _ _ _ _ _ _ Htoken Haccepted).
  unfold singleResourceUrl, prop. by rewrite Hid.
Qed.

Lemma single_resource_request_without_id_witness :
  convertRESTRequestToHTTP "http://my.api.url" plain_stringify no_body
    {[ "token" := "" ]} GET_ONE "posts" ∅
  = Ok (mkRequest
          ("http://my.api.url" +:+ "/" +:+ "posts" +:+ "?"
           +:+ plain_stringify {[ "id" := "eq.undefined" ]})
          (mkOptions
             (<["accept" := "application/vnd.pgrst.object+json"]>
                (<["prefer" := "return=representation"]>
                   (token_headers "")))
             None None)).
Proof.
  apply single_resource_request_without_id; vm_compute; reflexivity.
Defined.

(** X9.  A creation from end to end.  With a stored token that the builder
    gets past (one of at most 16 characters, or a longer one whose
    [Authorization] value the platform accepts), a [CREATE] call never
    fails before the transport: the transport is called once with a [POST]
    to [apiUrl/resource] (no query, the single-object headers, the
    serialised record as body), and when it resolves with an object the
    result is the submitted record with the [id] of that object. *)
Theorem dispatch_create_round_trip (apiUrl : string)
    (httpClient : string → Options → result Response)
    (stringify : gmap string string → string)
    (JSON_stringify : value → option string)
    (w : World) (token resource : string)
    (params d r : gmap string value) (response : Response) :
  let request :=
    mkRequest (apiUrl +:+ "/" +:+ resource)
      (mkOptions
         (<["accept" := "application/vnd.pgrst.object+json"]>
            (<["prefer" := "return=representation"]>
               (token_headers token)))
         (Some "POST") (JSON_stringify (VObj d))) in
  getItem (localStorage w) "token" = Some token →
  token_accepted token = true →
  params !! "data" = Some (VObj d) →
  httpClient (url request) (options request) = Ok response →
  json response = VObj r →
  dispatch apiUrl httpClient stringify JSON_stringify
    w CREATE resource params
  = (mkWorld (localStorage w) (calls w ++ [request]),
     Ok (mkREST (VObj (<["id" := default VUndefined (r !! "id")]> d))
           None)).
Proof.
  intros request Htoken Haccepted Hdata Hcall Hjson.
  assert (convertRESTRequestToHTTP apiUrl stringify JSON_stringify
            (localStorage w) CREATE resource params = Ok request) as Hbuild.
  { rewrite (build_CREATE _ _ _ _ _ _ _ Htoken Haccepted).
    unfold request, prop. by rewrite Hdata. }
  rewrite (dispatch_build_ok _ _ _ _ _ _ _ _ _ Hbuild), Hcall.
  cbn [mbind result_bind]. unfold convertHTTPResponseToREST.
  rewrite decide_False by (intros [?|?]; kinds_ne).
  rewrite decide_True by done.
  rewrite Hjson. cbn [JS.get mbind result_bind].
  unfold prop. by rewrite Hdata.
Qed.

Lemma dispatch_create_round_trip_witness :
  let w := mkWorld {[ "token" := "" ]} [] in
  let d : gmap string value := {[ "name" := VStr "x" ]} in
  let r : gmap string value :=
    {[ "id" := VNum (Int 42); "name" := VStr "y" ]} in
  let request :=
    mkRequest ("http://my.api.url" +:+ "/" +:+ "posts")
      (mkOptions
         (<["accept" := "application/vnd.pgrst.object+json"]>
            (<["prefer" := "return=representation"]> (token_headers "")))
         (Some "POST") (no_body (VObj d))) in
  dispatch "http://my.api.url" created_42 plain_stringify no_body
    w CREATE "posts" {[ "data" := VObj d ]}
  = (mkWorld (localStorage w) (calls w ++ [request]),
     Ok (mkREST (VObj (<["id" := default VUndefined (r !! "id")]> d))
           None)).
Proof.
  intros w d r request.
  apply (dispatch_create_round_trip "http://my.api.url" created_42
           plain_stringify no_body w "" "posts" {[ "data" := VObj d ]} d r
           (mkResponse {[ "content-type" := "application/json" ]} (VObj r)));
    vm_compute; reflexivity.
Defined.

(** X10.  With a stored token that the builder gets past, a
    [GET_MANY_REFERENCE] request for a target field other than [__proto__]
    filters on that field with the encoding of [id] that the filter encoder
    gives (so a string id becomes a pattern), next to the [order]
    parameter; it carries only the token's headers, and neither method nor
    body. *)
Theorem reference_request_filters_on_target (apiUrl : string)
    (stringify : gmap string string → string)
    (JSON_stringify : value → option string)
    (storage : gmap string string) (token resource : string)
    (params sort : gmap string value) (target f o s : string) :
  getItem storage "token" = Some token →
  token_accepted token = true →
  params !! "sort" = Some (VObj sort) →
  sort !! "field" = Some (VStr f) →
  sort !! "order" = Some (VStr o) →
  params !! "target" = Some (VStr target) →
  target ≠ "__proto__" →
  convertFilter (prop params "id") = Ok s →
  convertRESTRequestToHTTP apiUrl stringify JSON_stringify
    storage GET_MANY_REFERENCE resource params
  = Ok (mkRequest
          (apiUrl +:+ "/" +:+ resource +:+ "?"
           +:+ stringify ({[ target := s ]}
                          ∪ {[ "order" := f +:+ "." +:+ toLowerCase o ]}))
          (mkOptions (token_headers token) None None)).
Proof.
  intros Htoken Haccepted Hsort Hfield Horder Htarget _ Hid.
  rewrite (build_GET_MANY_REFERENCE _ _ _ _ _ _ _ Htoken Haccepted).
  unfold prop in *. rewrite Hsort, Htarget.
  cbn [default from_option id JS.get]. unfold prop.
  rewrite Hfield, Horder.
  cbn [default from_option id mbind result_bind to_string order_parameter
         call_toLowerCase].
  by rewrite convertFilters_singleton, Hid.
Qed.

Lemma reference_request_filters_on_target_witness :
  convertRESTRequestToHTTP "http://my.api.url" plain_stringify no_body
    {[ "token" := "" ]} GET_MANY_REFERENCE "comments"
    {[ "target" := VStr "post_id"; "id" := VStr "12";
       "sort" := VObj {[ "field" := VStr "id"; "order" := VStr "ASC" ]} ]}
  = Ok (mkRequest
          ("http://my.api.url" +:+ "/" +:+ "comments" +:+ "?"
           +:+ plain_stringify
                 ({[ "post_id" := "ilike.*12*" ]}
                  ∪ {[ "order" := "id" +:+ "." +:+ toLowerCase "ASC" ]}))
          (mkOptions (token_headers "") None None)).
Proof.
  apply (reference_request_filters_on_target "http://my.api.url"
           plain_stringify no_body {[ "token" := "" ]} "" "comments" _
           {[ "field" := VStr "id"; "order" := VStr "ASC" ]});
    first [vm_compute; reflexivity | discriminate].
Defined.

(** X11.  Among the requests that are built, those of kind [GET_LIST] and
    no others carry [Range], [Range-Unit: items] and [Prefer: count=exact]:
    in particular a [GET_MANY_REFERENCE] request asks for no range and no
    count. *)
Theorem only_list_requests_ask_for_a_range (apiUrl : string)
    (stringify : gmap string string → string)
    (JSON_stringify : value → option string)
    (storage : gmap string string) (type resource : string)
    (params : gmap string value) (request : Request) :
  convertRESTRequestToHTTP apiUrl stringify JSON_stringify
    storage type resource params = Ok request →
  (Headers.has "Range" (headers (options request)) = true ↔ type = GET_LIST)
  ∧ (Headers.get "Range-Unit" (headers (options request)) = Some "items"
     ↔ type = GET_LIST)
  ∧ (Headers.get "Prefer" (headers (options request)) = Some "count=exact"
     ↔ type = GET_LIST).
Proof.
  intros (token & range & _ & _ & _ & ->)%build_headers.
  unfold Headers.has, Headers.get.
  change (toLowerCase "Range") with "range".
  change (toLowerCase "Range-Unit") with "range-unit".
  change (toLowerCase "Prefer") with "prefer".
  assert (∀ name, name ≠ "authorization" →
                  token_headers token !! name = None) as Hbase.
  { intros name Hne. unfold token_headers. destruct (_ <? _)%nat; [|done].
    by apply lookup_singleton_ne. }
  unfold kind_headers. destruct (decide (type = GET_LIST)) as [->|Hne].
  - rewrite (lookup_insert_ne _ "prefer" "range") by discriminate.
    rewrite lookup_insert_eq.
    rewrite (lookup_insert_ne _ "prefer" "range-unit") by discriminate.
    rewrite (lookup_insert_ne _ "range" "range-unit") by discriminate.
    rewrite !lookup_insert_eq. rewrite bool_decide_eq_true. naive_solver.
  - rewrite bool_decide_eq_true.
    case_decide.
    + rewrite (lookup_insert_ne _ "accept" "range") by discriminate.
      rewrite (lookup_insert_ne _ "prefer" "range") by discriminate.
      rewrite (lookup_insert_ne _ "accept" "range-unit") by discriminate.
      rewrite (lookup_insert_ne _ "prefer" "range-unit") by discriminate.
      rewrite (lookup_insert_ne _ "accept" "prefer") by discriminate.
      rewrite lookup_insert_eq, !Hbase by discriminate.
      split; [|split]; (split; [|done]); [by intros [? [=]]|done|done].
    + rewrite !Hbase by discriminate.
      split; [|split]; (split; [|done]); [by intros [? [=]]|done|done].
Qed.

Lemma only_list_requests_ask_for_a_range_witness :
  Headers.has "Range"
    (headers (options
       (mkRequest "http://my.api.url/comments?order=id.asc&post_id=eq.12"
          (mkOptions ∅ None None)))) = true
  ↔ GET_MANY_REFERENCE = GET_LIST.
Proof.
  apply (only_list_requests_ask_for_a_range "http://my.api.url"
           plain_stringify no_body {[ "token" := "" ]} GET_MANY_REFERENCE
           "comments"
           {[ "target" := VStr "post_id"; "id" := VNum (Int 12);
              "sort" := VObj {[ "field" := VStr "id";
                                "order" := VStr "ASC" ]} ]}).
  vm_compute; reflexivity.
Defined.

(** X12.  Every request that is built has the method [PATCH] for
    [UPDATE], [POST] for [CREATE], [DELETE] for [DELETE] and none for the
    other kinds, and has a body, the serialised [data], for [UPDATE] and
    [CREATE] only. *)
Theorem method_and_body_by_kind (apiUrl : string)
    (stringify : gmap string string → string)
    (JSON_stringify : value → option string)
    (storage : gmap string string) (type resource : string)
    (params : gmap string value) (request : Request) :
  convertRESTRequestToHTTP apiUrl stringify JSON_stringify
    storage type resource params = Ok request →
  method (options request)
  = (if decide (type = UPDATE) then Some "PATCH"
     else if decide (type = CREATE) then Some "POST"
     else if decide (type = DELETE) then Some "DELETE"
     else None)
  ∧ body (options request)
    = (if decide (type = UPDATE ∨ type = CREATE)
       then JSON_stringify (prop params "data") else None).
Proof.
  intros H.
  destruct (build_Ok_inv _ _ _ _ _ _ _ _ H)
    as (token & Htoken & Haccepted & Hkind).
  unfold supported in Hkind. rewrite !elem_of_cons in Hkind.
  destruct Hkind as [->|[->|[->|[->|[->|[->|[->|[]%elem_of_nil]]]]]]].
  - rewrite (build_GET_LIST _ _ _ _ _ _ _ Htoken Haccepted) in H. inv_binds H.
    injection H as <-.
    by rewrite !decide_False by (try kinds_ne; intros [?|?]; kinds_ne).
  - rewrite (build_GET_ONE _ _ _ _ _ _ _ Htoken Haccepted) in H. inv_binds H.
    injection H as <-.
    by rewrite !decide_False by (try kinds_ne; intros [?|?]; kinds_ne).
  - rewrite (build_GET_MANY _ _ _ _ _ _ _ Htoken Haccepted) in H. inv_binds H.
    injection H as <-.
    by rewrite !decide_False by (try kinds_ne; intros [?|?]; kinds_ne).
  - rewrite (build_GET_MANY_REFERENCE _ _ _ _ _ _ _ Htoken Haccepted)
      in H.
    inv_binds H. injection H as <-.
    by rewrite !decide_False by (try kinds_ne; intros [?|?]; kinds_ne).
  - rewrite (build_CREATE _ _ _ _ _ _ _ Htoken Haccepted) in H.
    injection H as <-.
    rewrite decide_False by kinds_ne. by rewrite !decide_True by (by auto).
  - rewrite (build_UPDATE _ _ _ _ _ _ _ Htoken Haccepted) in H. inv_binds H.
    injection H as <-. by rewrite !decide_True by (by auto).
  - rewrite (build_DELETE _ _ _ _ _ _ _ Htoken Haccepted) in H. inv_binds H.
    injection H as <-.
    rewrite !decide_False by (try kinds_ne; intros [?|?]; kinds_ne).
    by rewrite decide_True.
Qed.

Lemma method_and_body_by_kind_witness :
  method (options
            (mkRequest "http://my.api.url/posts?id=eq.12"
               (mkOptions ∅ (Some "DELETE") None)))
  = (if decide (DELETE = UPDATE) then Some "PATCH"
     else if decide (DELETE = CREATE) then Some "POST"
     else if decide (DELETE = DELETE) then Some "DELETE"
     else None).
Proof.
  apply (method_and_body_by_kind "http://my.api.url" plain_stringify no_body
           {[ "token" := "" ]} DELETE "posts" {[ "id" := VNum (Int 12) ]}).
  vm_compute; reflexivity.
Defined.

(** X13.  When the filters have a field named [order], [Object.assign]
    overwrites the sort parameter with its encoding: the query is exactly
    the encoded filters. *)
Theorem filter_named_order_replaces_sort (filters : gmap string value)
    (rest : gmap string string) (sort_order : string) :
  convertFilters (VObj filters) = Ok rest →
  is_Some (filters !! "order") →
  assign_query sort_order rest = rest
  ∧ ∃ v s, filters !! "order" = Some v ∧ convertFilter v = Ok s
           ∧ assign_query sort_order rest !! "order" = Some s.
Proof.
  intros Hrest [v Hv].
  pose proof (convertFilters_Ok _ _ Hrest "order") as H.
  rewrite Hv in H. destruct H as (s & Hs & Hlookup).
  assert (assign_query sort_order rest = rest) as Heq.
  { unfold assign_query. apply map_eq. intros key.
    rewrite lookup_union. destruct (decide (key = "order")) as [->|Hne].
    - rewrite Hlookup. by rewrite lookup_singleton_eq.
    - rewrite lookup_singleton_ne by done. by destruct (rest !! key). }
  split; [done|]. exists v, s. by rewrite Heq.
Qed.

Lemma filter_named_order_replaces_sort_witness :
  assign_query "title.asc" {[ "order" := "eq.66" ]}
  = ({[ "order" := "eq.66" ]} : gmap string string).
Proof.
  apply (filter_named_order_replaces_sort {[ "order" := VNum (Int 66) ]});
    [vm_compute; reflexivity|vm_compute; eauto].
Defined.



(** X15.  The filters of an object are encoded if and only if each of its
    values is, and when they are not the error is a [TypeError]. *)
Theorem filters_encode_iff_every_field_encodes (filters : gmap string value) :
  (is_ok (convertFilters (VObj filters)) = true
   ↔ ∀ key v, filters !! key = Some v → is_ok (convertFilter v) = true)
  ∧ ∀ e, convertFilters (VObj filters) = Throw e → e = TypeError.
Proof.
  split; [|apply convertFilters_throws].
  unfold convertFilters. cbn [entries own_properties mbind result_bind].
  pose proof (convertFilters_loop filters) as Hloop.
  destruct (map_fold _ _ _) as [rest|e]; simpl in Hloop; split.
  - intros _ key v Hkey. specialize (Hloop key). rewrite Hkey in Hloop.
    by destruct Hloop as (s & -> & _).
  - done.
  - done.
  - intros Hall. destruct Hloop as (key & v & Hkey & Hv).
    apply Hall in Hkey. by rewrite Hv in Hkey.
Qed.





(** The decoder on a list response that has its header. *)
Lemma decode_list (response : Response) (type resource : string)
    (params : gmap string value) (range : string) :
  type = GET_LIST ∨ type = GET_MANY_REFERENCE →
  response_headers response !! "content-range" = Some range →
  convertHTTPResponseToREST response type resource params
  = total ← content_range_total range;
    rows ← call_slice (json response);
    Ok (mkREST rows (Some total)).
Proof.
  intros Hkind Hrange. unfold convertHTTPResponseToREST.
  rewrite decide_True by done. unfold Headers.has, Headers.get.
  change (toLowerCase "content-range") with "content-range".
  rewrite Hrange. rewrite bool_decide_true by eauto. done.
Qed.

(** The kinds that have no rule of their own in the decoder. *)
Lemma decode_passthrough (response : Response) (type resource : string)
    (params : gmap string value) :
  type ≠ GET_LIST → type ≠ GET_MANY_REFERENCE → type ≠ CREATE →
  type ≠ DELETE →
  convertHTTPResponseToREST response type resource params
  = Ok (mkREST (json response) None).
Proof.
  intros. unfold convertHTTPResponseToREST.
  by rewrite !decide_False by tauto.
Qed.

(** X18.  For a list response whose [Content-Range] is [start-end/segment]
    and whose body is an array, the result holds the rows of the body and
    the total [parseInt(segment)] when that is a number other than zero,
    [parseInt(end) + 1] otherwise. *)
Theorem list_response_total (response : Response) (type resource : string)
    (params : gmap string value) (start end_ segment : string)
    (rows : list value) :
  type = GET_LIST ∨ type = GET_MANY_REFERENCE →
  response_headers response !! "content-range"
  = Some (start +:+ "-" +:+ end_ +:+ "/" +:+ segment) →
  contains "/" start = false → contains "-" start = false →
  contains "/" end_ = false → contains "-" end_ = false →
  contains "/" segment = false →
  json response = VArr rows →
  convertHTTPResponseToREST response type resource params
  = Ok (mkREST (VArr rows)
          (Some (if number_truthy (parseInt segment) then parseInt segment
                 else num_add (parseInt end_) (Int 1)))).
Proof.
  intros Hkind Hrange ? ? ? ? ? Hjson.
  rewrite (decode_list _ _ _ _ _ Hkind Hrange).
  rewrite content_range_total_spec by done. by rewrite Hjson.
Qed.

Lemma list_response_total_witness :
  convertHTTPResponseToREST
    (mkResponse {[ "content-range" := "20" +:+ "-" +:+ "29" +:+ "/" +:+ "57" ]}
       (VArr [VObj {[ "id" := VNum (Int 21) ]}]))
    GET_MANY_REFERENCE "comments" ∅
  = Ok (mkREST (VArr [VObj {[ "id" := VNum (Int 21) ]}])
          (Some (if number_truthy (parseInt "57") then parseInt "57"
                 else num_add (parseInt "29") (Int 1)))).
Proof.
  apply (list_response_total _ _ _ _ "20" "29" "57");
    [by right|vm_compute; reflexivity|reflexivity..].
Defined.

(** X19.  A list response with a usable [Content-Range] whose body is
    neither an array nor a string (an error object, or no body) makes the
    decoder throw a [TypeError]. *)
Theorem list_response_requires_rows (response : Response)
    (type resource : string) (params : gmap string value)
    (range : string) (t : number) :
  type = GET_LIST ∨ type = GET_MANY_REFERENCE →
  response_headers response !! "content-range" = Some range →
  content_range_total range = Ok t →
  (∀ rows, json response ≠ VArr rows) →
  (∀ s, json response ≠ VStr s) →
  convertHTTPResponseToREST response type resource params = Throw TypeError.
Proof.
  intros Hkind Hrange Htotal Harr Hstr.
  rewrite (decode_list _ _ _ _ _ Hkind Hrange), Htotal.
  cbn [mbind result_bind].
  destruct (json response) as [| |b|n|s|l|m]; try done.
  - by destruct (Hstr s).
  - by destruct (Harr l).
Qed.

Lemma list_response_requires_rows_witness :
  convertHTTPResponseToREST
    (mkResponse {[ "content-range" := "0-9/23" ]}
       (VObj {[ "message" := VStr "permission denied" ]}))
    GET_LIST "posts" ∅
  = Throw TypeError.
Proof.
  apply (list_response_requires_rows _ _ _ _ "0-9/23" (Int 23));
    [by left|vm_compute; reflexivity|vm_compute; reflexivity
    |intros ?; discriminate|intros ?; discriminate].
Defined.

(** X20.  When [Content-Range] has no slash, the whole value is read as the
    total; if it does not start with a number other than zero the decoder
    throws a [TypeError]. *)
Theorem content_range_without_slash (response : Response)
    (type resource : string) (params : gmap string value)
    (range : string) (rows : list value) :
  type = GET_LIST ∨ type = GET_MANY_REFERENCE →
  response_headers response !! "content-range" = Some range →
  contains "/" range = false →
  json response = VArr rows →
  convertHTTPResponseToREST response type resource params
  = if number_truthy (parseInt range)
    then Ok (mkREST (VArr rows) (Some (parseInt range)))
    else Throw TypeError.
Proof.
  intros Hkind Hrange Hslash Hjson.
  rewrite (decode_list _ _ _ _ _ Hkind Hrange).
  unfold content_range_total. rewrite split_absent by done.
  unfold pop. cbn [last removelast default from_option id].
  destruct (number_truthy (parseInt range)); [|done].
  by rewrite Hjson.
Qed.

Lemma content_range_without_slash_witness :
  convertHTTPResponseToREST
    (mkResponse {[ "content-range" := "items 0-9" ]} (VArr []))
    GET_LIST "posts" ∅
  = if number_truthy (parseInt "items 0-9")
    then Ok (mkREST (VArr []) (Some (parseInt "items 0-9")))
    else Throw TypeError.
Proof.
  apply content_range_without_slash;
    [by left|vm_compute; reflexivity|reflexivity|reflexivity].
Defined.

(** X21.  The decoder of a [CREATE] response throws a [TypeError] when the
    body is [null] or missing; for a body that is not an object the result
    is the submitted record with [id] set to [undefined]. *)
Theorem create_response_requires_body (response : Response)
    (resource : string) (params : gmap string value) :
  (nullish (json response) = true →
   convertHTTPResponseToREST response CREATE resource params
   = Throw TypeError)
  ∧ (nullish (json response) = false →
     (∀ r, json response ≠ VObj r) →
     convertHTTPResponseToREST response CREATE resource params
     = Ok (mkREST
             (VObj (<["id" := VUndefined]> (spread (prop params "data"))))
             None)).
Proof.
  unfold convertHTTPResponseToREST.
  rewrite decide_False by (intros [?|?]; kinds_ne).
  rewrite decide_True by done.
  split.
  - by destruct (json response).
  - intros Hnull Hobj. destruct (json response) as [| |b|n|s|l|m]; try done.
    by destruct (Hobj m).
Qed.

Lemma create_response_requires_body_witness :
  convertHTTPResponseToREST (mkResponse ∅ VUndefined) CREATE "posts"
    {[ "data" := VObj {[ "name" := VStr "x" ]} ]}
  = Throw TypeError.
Proof. by apply create_response_requires_body. Defined.

(** X22.  For [GET_ONE], [GET_MANY] and [UPDATE], when the request is
    built and the transport resolves, the dispatcher has called the
    transport once with that request and returns the body of the response
    as [data], without a total. *)
Theorem dispatch_passes_body_through (apiUrl : string)
    (httpClient : string → Options → result Response)
    (stringify : gmap string string → string)
    (JSON_stringify : value → option string)
    (w : World) (type resource : string) (params : gmap string value)
    (request : Request) (response : Response) :
  type ∈ [GET_ONE; GET_MANY; UPDATE] →
  convertRESTRequestToHTTP apiUrl stringify JSON_stringify
    (localStorage w) type resource params = Ok request →
  httpClient (url request) (options request) = Ok response →
  dispatch apiUrl httpClient stringify JSON_stringify w type resource params
  = (mkWorld (localStorage w) (calls w ++ [request]),
     Ok (mkREST (json response) None)).
Proof.
  intros Hkind Hbuild Hcall.
  rewrite (dispatch_build_ok _ _ _ _ _ _ _ _ _ Hbuild), Hcall.
  cbn [mbind result_bind]. rewrite decode_passthrough; [done|..];
    rewrite !elem_of_cons in Hkind;
    destruct Hkind as [->|[->|[->|[]%elem_of_nil]]]; kinds_ne.
Qed.

Lemma dispatch_passes_body_through_witness :
  let w := mkWorld {[ "token" := "" ]} [] in
  let request :=
    mkRequest "http://my.api.url/posts?id=eq.42"
      (mkOptions
         {[ "prefer" := "return=representation";
            "accept" := "application/vnd.pgrst.object+json" ]}
         None None) in
  let response :=
    mkResponse {[ "content-type" := "application/json" ]}
      (VObj {[ "id" := VNum (Int 42); "name" := VStr "y" ]}) in
  dispatch "http://my.api.url" created_42 plain_stringify no_body
    w GET_ONE "posts" {[ "id" := VNum (Int 42) ]}
  = (mkWorld (localStorage w) (calls w ++ [request]),
     Ok (mkREST (json response) None)).
Proof.
  intros w request response.
  apply (dispatch_passes_body_through "http://my.api.url" created_42
           plain_stringify no_body w GET_ONE "posts"
           {[ "id" := VNum (Int 42) ]} request response);
    [constructor|vm_compute; reflexivity|vm_compute; reflexivity].
Defined.

(** X23.  For [DELETE], when the request is built and the transport
    resolves, the dispatcher returns [{ data: {} }] whatever the response
    holds. *)
Theorem dispatch_delete_acknowledges (apiUrl : string)
    (httpClient : string → Options → result Response)
    (stringify : gmap string string → string)
    (JSON_stringify : value → option string)
    (w : World) (resource : string) (params : gmap string value)
    (request : Request) (response : Response) :
  convertRESTRequestToHTTP apiUrl stringify JSON_stringify
    (localStorage w) DELETE resource params = Ok request →
  httpClient (url request) (options request) = Ok response →
  dispatch apiUrl httpClient stringify JSON_stringify
    w DELETE resource params
  = (mkWorld (localStorage w) (calls w ++ [request]),
     Ok (mkREST (VObj ∅) None)).
Proof.
  intros Hbuild Hcall.
  rewrite (dispatch_build_ok _ _ _ _ _ _ _ _ _ Hbuild), Hcall.
  cbn [mbind result_bind]. by rewrite delete_decodes_to_empty_record.
Qed.

Lemma dispatch_delete_acknowledges_witness :
  let w := mkWorld {[ "token" := "" ]} [] in
  let request :=
    mkRequest "http://my.api.url/posts?id=eq.42"
      (mkOptions ∅ (Some "DELETE") None) in
  dispatch "http://my.api.url" created_42 plain_stringify no_body
    w DELETE "posts" {[ "id" := VNum (Int 42) ]}
  = (mkWorld (localStorage w) (calls w ++ [request]),
     Ok (mkREST (VObj ∅) None)).
Proof.
  intros w request.
  apply (dispatch_delete_acknowledges "http://my.api.url" created_42
           plain_stringify no_body w "posts" {[ "id" := VNum (Int 42) ]}
           request
           (mkResponse {[ "content-type" := "application/json" ]}
              (VObj {[ "id" := VNum (Int 42); "name" := VStr "y" ]})));
    vm_compute; reflexivity.
Defined.

(** X24.  The dispatcher never writes the token store.  Either the request
    cannot be built, the transport is not called and the builder's error is
    the outcome; or the transport is called exactly once, with the request
    built, and an error of the transport is the outcome, unchanged. *)
Theorem dispatch_calls_transport_at_most_once (apiUrl : string)
    (httpClient : string → Options → result Response)
    (stringify : gmap string string → string)
    (JSON_stringify : value → option string)
    (w : World) (type resource : string) (params : gmap string value) :
  let outcome :=
    dispatch apiUrl httpClient stringify JSON_stringify
      w type resource params in
  localStorage (fst outcome) = localStorage w
  ∧ ((∃ e, convertRESTRequestToHTTP apiUrl stringify JSON_stringify
             (localStorage w) type resource params = Throw e
           ∧ calls (fst outcome) = calls w ∧ snd outcome = Throw e)
     ∨ (∃ request,
          convertRESTRequestToHTTP apiUrl stringify JSON_stringify
            (localStorage w) type resource params = Ok request
          ∧ calls (fst outcome) = (calls w ++ [request])%list
          ∧ ∀ e, httpClient (url request) (options request) = Throw e →
                 snd outcome = Throw e)).
Proof.
  intros outcome. subst outcome. unfold dispatch.
  destruct (convertRESTRequestToHTTP _ _ _ _ _ _ _) as [request|e] eqn:H.
  - split; [done|]. right. exists request. repeat split.
    intros e He. cbn [snd]. by rewrite He.
  - split; [done|]. left. by exists e.
Qed.
